(** * jxl_container_fixer: extraction of a bare codestream from a box container

    A shallow embedding of [scripts/jxl_container_fixer.py] ([read_box] and
    [extract_codestream]) together with the properties of the extractor.

    The Python code reads the input through a buffered binary file object
    [f], keeps a list of [(index, data)] tuples, and runs inside one
    [try: ... except Exception:] block.  The embedding therefore is a small
    state-and-exception monad over the file cursor and the output file, and
    the [while True] loop is a fuelled fixpoint.

    The code is embedded twice.  [extract_codestream] is the call with
    [verbose=False], the default of the parameter, in which every
    [if verbose:] block is dead; [extract_codestream_v] is the function with
    its [verbose] parameter and its messages.  [extract_v_quiet] shows that
    the two agree when [verbose] is [False]. *)

From Stdlib Require Import ZArith List Bool Lia.
From Stdlib Require Import Init.Byte Strings.Byte.
From Stdlib Require Import Sorting.Sorted Sorting.Permutation.
From Stdlib Require Strings.String.
Import ListNotations.
Import String.StringSyntax.
Delimit Scope string_scope with string.
Open Scope Z_scope.

(** ** Bytes *)

Definition bytes := list byte.

(** [a == b] on [bytes] objects. *)
Fixpoint bytes_eqb (a b : bytes) : bool :=
  match a, b with
  | [], [] => true
  | x :: a', y :: b' => Byte.eqb x y && bytes_eqb a' b'
  | _, _ => false
  end.

(** The first [n] bytes of [l] and what follows them, for a count that is a
    Python integer; both recurse on the list, so that a huge count costs
    nothing. *)
Fixpoint take (n : Z) (l : bytes) : bytes :=
  match l with
  | [] => []
  | b :: l' => if n <=? 0 then [] else b :: take (n - 1) l'
  end.

Fixpoint drop (n : Z) (l : bytes) : bytes :=
  match l with
  | [] => []
  | b :: l' => if n <=? 0 then l else drop (n - 1) l'
  end.

(** The value of a byte string read as a big-endian unsigned integer:
    what [struct.unpack('>I', d)[0]] and [struct.unpack('>Q', d)[0]] compute
    once the length of [d] has been checked. *)
Definition be_value (d : bytes) : Z :=
  fold_left (fun acc b => acc * 256 + Z.of_N (Byte.to_N b)) d 0.

(** [b'\x00\x00\x00\x0c'], [b'\xff\x0a'], [b'jxlc'] and [b'jxlp']. *)
Definition container_sig : bytes := [x00; x00; x00; x0c].
Definition codestream_magic : bytes := [xff; x0a].
Definition jxlc : bytes := [x6a; x78; x6c; x63].
Definition jxlp : bytes := [x6a; x78; x6c; x70].

(** ** The world outside the program *)

(** What the platform grants.  [max_read] is the largest byte count for which
    [f.read] obtains its buffer: CPython converts the count to a signed
    machine word and allocates the buffer before reading, so a larger count
    raises [OverflowError] or [MemoryError].  [max_offset] is the largest
    offset [f.seek] accepts; beyond it [seek] raises [ValueError] or
    [OSError].  [out_writable] tells whether [open(output_path, 'wb')]
    succeeds.

    [in_place] tells whether [output_path] names the file that [input_path]
    names: the code does not look, and [open(output_path, 'wb')] then empties
    the file that [f] is reading.  [buffer_size] is the size of the buffer of
    [f] (the block size of the device, 8192 by default); it decides what [f]
    still holds at that moment.

    [stdout_accepts] tells on which texts [print] succeeds: a message made
    of ASCII characters only, a message with one of the signs the code
    prints (check mark, cross, circled slash, warning sign), or a message
    that holds the name of the input file.  On a standard output with an
    ASCII or a legacy code page signs are refused ([UnicodeEncodeError]); on
    a closed one every text is. *)
Inductive text := Plain | Check | Cross | Slashed | Warning | FileName.

Record platform := {
  max_read : Z;
  max_offset : Z;
  out_writable : bool;
  in_place : bool;
  buffer_size : Z;
  stdout_accepts : text -> bool
}.

(** The exceptions the code can meet; all of them derive from [Exception].
    [PrintError] is what a refused [print] raises. *)
Inductive exn := StructError | ValueError | MemoryError | OSError | PrintError.

(** The mutable state of one call: the position of the input file object and
    the output file.  [written = None] means that the output path has not
    been opened by this call; [Some d] that it has been opened with ['wb']
    (which truncates it) and holds [d].  Input and output are taken to be
    different files. *)
Record handles := {
  f_pos : Z;
  written : option bytes
}.

Inductive outcome (A : Type) :=
| Ret (a : A) (s : handles)
| Raise (e : exn) (s : handles)
| OutOfFuel.
Arguments Ret {A} a s.
Arguments Raise {A} e s.
Arguments OutOfFuel {A}.

Definition M (A : Type) := handles -> outcome A.

Definition ret {A} (a : A) : M A := fun s => Ret a s.
Definition raise {A} (e : exn) : M A := fun s => Raise e s.
Definition bind {A B} (c : M A) (k : A -> M B) : M B :=
  fun s => match c s with
           | Ret a s' => k a s'
           | Raise e s' => Raise e s'
           | OutOfFuel => OutOfFuel
           end.

Notation "x <- c ;; k" := (bind c (fun x => k))
  (at level 61, c at next level, right associativity).
Notation "c ;;; k" := (bind c (fun _ => k))
  (at level 61, right associativity).

(** One segment of the codestream: the tuple [(index, data)]. *)
Definition part := (Z * bytes)%type.

(** [codestream_parts.sort(key=lambda x: x[0])]: Python's sort is stable, so
    the result is the one list that is ordered by index and keeps parts of
    equal index in their former order.  Insertion from the right, before the
    first part whose index is not smaller, computes that list. *)
Fixpoint insert_part (p : part) (l : list part) : list part :=
  match l with
  | [] => [p]
  | q :: l' => if fst p <=? fst q then p :: q :: l' else q :: insert_part p l'
  end.

Fixpoint sort_by_index (l : list part) : list part :=
  match l with
  | [] => []
  | p :: l' => insert_part p (sort_by_index l')
  end.

(** [b''.join([data for _, data in codestream_parts])] *)
Definition join_parts (l : list part) : bytes := concat (map snd l).

(** The tuple returned by [read_box] when a header was read. *)
Record box := {
  box_type : bytes;
  size : Z;
  header_size : Z;
  box_start : Z
}.

(** How one pass through the body of [while True] ends. *)
Inductive loop_ctl :=
| Break (parts : list part)
| Continue (parts : list part).

Section Extractor.

Variable plat : platform.
(** The content of the input file. *)
Variable data : bytes.

(** The bytes from the cursor to the end of the file. *)
Definition remaining (s : handles) : bytes :=
  drop (f_pos s) data.

Definition advance (s : handles) (n : nat) : handles :=
  {| f_pos := f_pos s + Z.of_nat n; written := written s |}.

(** [f.read(n)] on a buffered reader: [n = -1] reads to the end of the
    file, a smaller [n] raises [ValueError], and a count for which no
    buffer can be had raises.  A read near the end of the file returns
    the bytes that are left, without an error. *)
Definition f_read (n : Z) : M bytes := fun s =>
  if n <? -1 then Raise ValueError s
  else
    let avail := remaining s in
    let got := if n =? -1 then avail else take n avail in
    let need := if n =? -1 then Z.of_nat (length avail) else n in
    if max_read plat <? need then Raise MemoryError s
    else Ret got (advance s (length got)).

(** [f.seek(p)]: any offset from 0 up to the platform's largest one is
    accepted, also past the end of the file. *)
Definition f_seek (p : Z) : M unit := fun s =>
  if (p <? 0) || (max_offset plat <? p) then Raise OSError s
  else Ret tt {| f_pos := p; written := written s |}.

Definition f_tell : M Z := fun s => Ret (f_pos s) s.

(** [struct.unpack('>I', d)[0]] for [width = 4] and
    [struct.unpack('>Q', d)[0]] for [width = 8]: [struct.error] unless [d]
    has exactly [width] bytes. *)
Definition unpack (width : nat) (d : bytes) : M Z :=
  if Nat.eqb (length d) width then ret (be_value d) else raise StructError.

(** [open(output_path, 'wb')] *)
Definition out_open : M unit := fun s =>
  if out_writable plat
  then Ret tt {| f_pos := f_pos s; written := Some [] |}
  else Raise OSError s.

(** [out.write(d)] *)
Definition out_write (d : bytes) : M unit := fun s =>
  Ret tt {| f_pos := f_pos s;
            written := Some (match written s with
                             | Some w => w ++ d
                             | None => d
                             end) |}.

(** What [f] still delivers after [f.read(12)], [f.seek(0)] and
    [open(output_path, 'wb')].  When the output is another file, that is the
    whole input.  When it is the input file itself, the file is empty by now
    and [f] has only its buffer: the first read filled it with up to
    [buffer_size] bytes, and [f.seek(0)] keeps it when bytes beyond the
    twelve that were read are left in it; otherwise the seek drops the
    buffer and nothing is left. *)
Definition after_open : bytes :=
  if in_place plat
  then if (12 <? Z.of_nat (length data)) && (12 <? buffer_size plat)
       then take (buffer_size plat) data
       else []
  else data.

(** [f.read()] in [out.write(f.read())], behind [open(output_path, 'wb')]. *)
Definition f_read_after_open : M bytes := fun s =>
  let avail := drop (f_pos s) after_open in
  if max_read plat <? Z.of_nat (length avail) then Raise MemoryError s
  else Ret avail (advance s (length avail)).

(** [read_box(f)]; [None] stands for the tuple of four [None]s. *)
Definition read_box : M (option box) :=
  size_data <- f_read 4 ;;
  if (length size_data <? 4)%nat then ret None
  else
    sz <- unpack 4 size_data ;;
    bt <- f_read 4 ;;
    if sz =? 1 then
      ext <- f_read 8 ;;
      sz64 <- unpack 8 ext ;;
      p <- f_tell ;;
      ret (Some {| box_type := bt; size := sz64; header_size := 16;
                   box_start := p - 16 |})
    else
      p <- f_tell ;;
      ret (Some {| box_type := bt; size := sz; header_size := 8;
                   box_start := p - 8 |}).

(** What the loop does with a box whose header [read_box] returned. *)
Definition handle_box (b : box) (codestream_parts : list part) : M loop_ctl :=
  if bytes_eqb (box_type b) jxlc then
    let codestream_size := size b - header_size b in
    codestream_data <- f_read codestream_size ;;
    ret (Break (codestream_parts ++ [(0, codestream_data)]))
  else if bytes_eqb (box_type b) jxlp then
    index_data <- f_read 4 ;;
    index <- unpack 4 index_data ;;
    let data_size := size b - header_size b - 4 in
    d <- f_read data_size ;;
    ret (Continue (codestream_parts ++ [(index, d)]))
  else
    f_seek (box_start b + size b) ;;;
    ret (Continue codestream_parts).

(** The body of [while True]. *)
Definition loop_body (codestream_parts : list part) : M loop_ctl :=
  b <- read_box ;;
  match b with
  | None => ret (Break codestream_parts)
  | Some bx => handle_box bx codestream_parts
  end.

(** The [while True] loop; the fuel bounds the number of passes. *)
Fixpoint collect (fuel : nat) (codestream_parts : list part)
  : M (list part) :=
  match fuel with
  | O => fun _ => OutOfFuel
  | S fuel' =>
      c <- loop_body codestream_parts ;;
      match c with
      | Break parts => ret parts
      | Continue parts => collect fuel' parts
      end
  end.

(** The merge step: the list is sorted only when it has more than one
    part. *)
Definition merge (codestream_parts : list part) : bytes :=
  join_parts (if (1 <? length codestream_parts)%nat
              then sort_by_index codestream_parts
              else codestream_parts).

(** The block under [with open(input_path, 'rb') as f:]. *)
Definition extract_body (fuel : nat) : M bool :=
  sig <- f_read 12 ;;
  if negb (bytes_eqb (take 4 sig) container_sig) then
    if bytes_eqb (take 2 sig) codestream_magic then
      f_seek 0 ;;;
      out_open ;;;
      all <- f_read_after_open ;;
      out_write all ;;;
      ret true
    else ret false
  else
    codestream_parts <- collect fuel [] ;;
    match codestream_parts with
    | [] => ret false
    | _ :: _ =>
        let codestream_data := merge codestream_parts in
        out_open ;;;
        out_write codestream_data ;;;
        if negb (bytes_eqb (take 2 codestream_data) codestream_magic)
        then ret false
        else ret true
    end.

End Extractor.

(** The state in which the body starts: cursor at 0, output untouched. *)
Definition start : handles := {| f_pos := 0; written := None |}.

(** [try: ... except Exception: return False], the handler as it runs with
    [verbose=False].  The result is the returned boolean and the state of
    the output file; [None] is a run that needs more than [fuel] passes of
    the loop. *)
Definition try_except (r : outcome bool) : option (bool * option bytes) :=
  match r with
  | Ret b s => Some (b, written s)
  | Raise _ s => Some (false, written s)
  | OutOfFuel => None
  end.

(** [extract_codestream(input_path, output_path)].  [input = None] is an
    input path that cannot be opened: [open] raises inside the [try]. *)
Definition extract_codestream (plat : platform) (input : option bytes)
    (fuel : nat) : option (bool * option bytes) :=
  match input with
  | None => try_except (Raise OSError start)
  | Some data => try_except (extract_body plat data fuel start)
  end.

(** ** The function with its [verbose] parameter *)

Section Verbose.

Variable verbose : bool.
Variable plat : platform.
Variable data : bytes.

(** [print(...)] of a text of kind [t]. *)
Definition print_text (t : text) : M unit := fun s =>
  if stdout_accepts plat t then Ret tt s else Raise PrintError s.

(** [if verbose: print(...)] *)
Definition say (t : text) : M unit :=
  if verbose then print_text t else ret tt.

Definition handle_box_v (b : box) (codestream_parts : list part)
  : M loop_ctl :=
  if bytes_eqb (box_type b) jxlc then
    say Check ;;;
    let codestream_size := size b - header_size b in
    codestream_data <- f_read plat data codestream_size ;;
    ret (Break (codestream_parts ++ [(0, codestream_data)]))
  else if bytes_eqb (box_type b) jxlp then
    say Check ;;;
    index_data <- f_read plat data 4 ;;
    index <- unpack 4 index_data ;;
    let data_size := size b - header_size b - 4 in
    d <- f_read plat data data_size ;;
    ret (Continue (codestream_parts ++ [(index, d)]))
  else
    f_seek plat (box_start b + size b) ;;;
    ret (Continue codestream_parts).

Definition loop_body_v (codestream_parts : list part) : M loop_ctl :=
  b <- read_box plat data ;;
  match b with
  | None => ret (Break codestream_parts)
  | Some bx => handle_box_v bx codestream_parts
  end.

Fixpoint collect_v (fuel : nat) (codestream_parts : list part)
  : M (list part) :=
  match fuel with
  | O => fun _ => OutOfFuel
  | S fuel' =>
      c <- loop_body_v codestream_parts ;;
      match c with
      | Break parts => ret parts
      | Continue parts => collect_v fuel' parts
      end
  end.

(** The block under [with open(input_path, 'rb') as f:], messages
    included: a circled slash for the bare codestream, a cross for what is
    not found or not valid, a check mark for what is found, detected or
    extracted, a warning sign for the unexpected header; the message about
    merging is plain. *)
Definition extract_body_v (fuel : nat) : M bool :=
  sig <- f_read plat data 12 ;;
  if negb (bytes_eqb (take 4 sig) container_sig) then
    if bytes_eqb (take 2 sig) codestream_magic then
      say Slashed ;;;
      f_seek plat 0 ;;;
      out_open plat ;;;
      all <- f_read_after_open plat data ;;
      out_write all ;;;
      ret true
    else
      say Cross ;;;
      ret false
  else
    say Check ;;;
    codestream_parts <- collect_v fuel [] ;;
    match codestream_parts with
    | [] =>
        say Cross ;;;
        ret false
    | _ :: _ =>
        (if (1 <? length codestream_parts)%nat then say Plain else ret tt) ;;;
        let codestream_data := merge codestream_parts in
        out_open plat ;;;
        out_write codestream_data ;;;
        say Check ;;;
        if negb (bytes_eqb (take 2 codestream_data) codestream_magic)
        then say Warning ;;; ret false
        else ret true
    end.

End Verbose.

(** How a call ends for its caller: it returns a boolean, an exception
    leaves the function, or the loop has not ended within the fuel.  In each
    case the state of the output file is kept. *)
Inductive call_result :=
| Returned (b : bool) (w : option bytes)
| Escaped (e : exn) (w : option bytes)
| Unfinished.

(** [try: ... except Exception as e: if verbose: print(...); return False].
    The handler's message carries a cross.  An exception that the handler's
    own [print] raises is not caught by anything. *)
Definition try_except_v (verbose : bool) (plat : platform)
    (r : outcome bool) : call_result :=
  match r with
  | Ret b s => Returned b (written s)
  | Raise _ s =>
      match say verbose plat Cross s with
      | Ret _ s' => Returned false (written s')
      | Raise e' s' => Escaped e' (written s')
      | OutOfFuel => Unfinished
      end
  | OutOfFuel => Unfinished
  end.

(** [extract_codestream(input_path, output_path, verbose)] *)
Definition extract_codestream_v (verbose : bool) (plat : platform)
    (input : option bytes) (fuel : nat) : call_result :=
  match input with
  | None => try_except_v verbose plat (Raise OSError start)
  | Some data =>
      try_except_v verbose plat (extract_body_v verbose plat data fuel start)
  end.

(** What the call with [verbose=False] gives, as a [call_result]. *)
Definition as_call_result (r : option (bool * option bytes)) : call_result :=
  match r with
  | Some (b, w) => Returned b w
  | None => Unfinished
  end.

(** ** The layout of a container file

    The vocabulary in which the properties speak about an input: a box as
    its bytes lie in the file, split into the fields of the format. *)

Record raw_box := {
  rb_size : bytes;   (* the 32-bit size field *)
  rb_type : bytes;   (* the type tag *)
  rb_ext : bytes;    (* the 64-bit size field, present when the size field is 1 *)
  rb_body : bytes    (* what follows the header *)
}.

Definition box_bytes (r : raw_box) : bytes :=
  rb_size r ++ rb_type r ++ rb_ext r ++ rb_body r.

Definition extended (r : raw_box) : bool := be_value (rb_size r) =? 1.

Definition declared_size (r : raw_box) : Z :=
  if extended r then be_value (rb_ext r) else be_value (rb_size r).

Definition header_length (r : raw_box) : Z :=
  if extended r then 16 else 8.

(** All header fields are present in full. *)
Definition header_ok (r : raw_box) : bool :=
  Nat.eqb (length (rb_size r)) 4 && Nat.eqb (length (rb_type r)) 4
  && Nat.eqb (length (rb_ext r)) (if extended r then 8 else 0).

(** The declared size is the length of the header plus that of the body. *)
Definition well_formed (r : raw_box) : bool :=
  header_ok r
  && (declared_size r =? header_length r + Z.of_nat (length (rb_body r))).

Definition is_jxlc (r : raw_box) : bool := bytes_eqb (rb_type r) jxlc.
Definition is_jxlp (r : raw_box) : bool := bytes_eqb (rb_type r) jxlp.

(** A box the scan passes over and goes on: a well-formed box that is not
    [jxlc], and whose body holds at least the index when it is [jxlp]. *)
Definition scannable (r : raw_box) : bool :=
  well_formed r && negb (is_jxlc r)
  && (negb (is_jxlp r) || (4 <=? length (rb_body r))%nat).

(** A box that is neither [jxlc] nor [jxlp]. *)
Definition skipped (r : raw_box) : bool :=
  well_formed r && negb (is_jxlc r) && negb (is_jxlp r).

(** The segment a [jxlp] box carries: its index is the big-endian value of
    the first four bytes of the body, its payload the rest of the body. *)
Definition segment_of (r : raw_box) : list part :=
  if is_jxlp r then [(be_value (take 4 (rb_body r)), drop 4 (rb_body r))]
  else [].

Definition segments_of (boxes : list raw_box) : list part :=
  flat_map segment_of boxes.

Definition boxes_bytes (boxes : list raw_box) : bytes :=
  concat (map box_bytes boxes).

(** The platform can read the signature, can hold the whole of [data] in
    one buffer and can seek to any offset inside it. *)
Definition fits (plat : platform) (data : bytes) : Prop :=
  12 <= max_read plat
  /\ Z.of_nat (length data) <= max_read plat
  /\ Z.of_nat (length data) <= max_offset plat.

(** The first twelve bytes of a container: the signature box. *)
Definition container_header (sig : bytes) : bool :=
  Nat.eqb (length sig) 12 && bytes_eqb (take 4 sig) container_sig.

(** The state in which the scan starts: the cursor behind the (up to)
    twelve bytes read as the signature. *)
Definition after_signature (data : bytes) : handles :=
  {| f_pos := Z.of_nat (length (take 12 data)); written := None |}.

(** [codestream_data[:2] == b'\xff\x0a'] *)
Definition has_magic (d : bytes) : bool := bytes_eqb (take 2 d) codestream_magic.

(** A platform as generous as a 64-bit one can be: every count and offset
    that fits a signed 64-bit word is granted. *)
Definition roomy : platform :=
  {| max_read := 2 ^ 63 - 1; max_offset := 2 ^ 63 - 1; out_writable := true;
     in_place := false; buffer_size := 8192;
     stdout_accepts := fun _ => true |}.

(** The same platform with an output path that cannot be opened. *)
Definition read_only : platform :=
  {| max_read := 2 ^ 63 - 1; max_offset := 2 ^ 63 - 1; out_writable := false;
     in_place := false; buffer_size := 8192;
     stdout_accepts := fun _ => true |}.


(** The same platform with a standard output that takes ASCII only. *)
Definition ascii_stdout : platform :=
  {| max_read := 2 ^ 63 - 1; max_offset := 2 ^ 63 - 1; out_writable := true;
     in_place := false; buffer_size := 8192;
     stdout_accepts := fun t => match t with Plain => true | _ => false end |}.

(** No message is printed, or every message is accepted. *)
Definition quiet (verbose : bool) (plat : platform) : Prop :=
  verbose = false \/ forall t, stdout_accepts plat t = true.

(** A computation that leaves the output file as it found it. *)
Definition keeps_output {A} (c : M A) : Prop :=
  forall s, match c s with
            | Ret _ s' | Raise _ s' => written s' = written s
            | OutOfFuel => True
            end.

(** The state after the cursor has moved on by [n] bytes. *)
Definition moved (s : handles) (n : Z) : handles :=
  {| f_pos := f_pos s + n; written := written s |}.

(** Ascending order of indices, and the parts of one index. *)
Definition index_le (a b : part) : Prop := fst a <= fst b.

Definition has_index (k : Z) (p : part) : bool := fst p =? k.

(** ** Sample files *)

(** The signature box of a JPEG XL container. *)
Definition sample_sig : bytes :=
  [x00; x00; x00; x0c; x4a; x58; x4c; x20; x0d; x0a; x87; x0a].

Definition free : bytes := [x66; x72; x65; x65].

(** A [jxlp] box of 14 bytes: index [i] and the payload [a b]. *)
Definition jxlp_box (i a b : byte) : raw_box :=
  {| rb_size := [x00; x00; x00; x0e]; rb_type := jxlp; rb_ext := [];
     rb_body := [x00; x00; x00; i; a; b] |}.

(** A [free] box of 10 bytes. *)
Definition free_box : raw_box :=
  {| rb_size := [x00; x00; x00; x0a]; rb_type := free; rb_ext := [];
     rb_body := [x77; x77] |}.

(** A [free] box of 18 bytes with the 64-bit size field. *)
Definition free_box64 : raw_box :=
  {| rb_size := [x00; x00; x00; x01]; rb_type := free;
     rb_ext := [x00; x00; x00; x00; x00; x00; x00; x12];
     rb_body := [x77; x77] |}.

(** A [jxlc] box of 10 bytes with the payload [a b]. *)
Definition jxlc_box (a b : byte) : raw_box :=
  {| rb_size := [x00; x00; x00; x0a]; rb_type := jxlc; rb_ext := [];
     rb_body := [a; b] |}.

(** A [free] box whose size field is 0. *)
Definition zero_box : raw_box :=
  {| rb_size := [x00; x00; x00; x00]; rb_type := free; rb_ext := [];
     rb_body := [] |}.

(** A [jxlc] header whose size field is 0. *)
Definition zero_jxlc : raw_box :=
  {| rb_size := [x00; x00; x00; x00]; rb_type := jxlc; rb_ext := [];
     rb_body := [xff; x0a] |}.

(** A [jxlc] box that declares [2^64 - 1] bytes and holds two. *)
Definition huge_jxlc : raw_box :=
  {| rb_size := [x00; x00; x00; x01]; rb_type := jxlc;
     rb_ext := [xff; xff; xff; xff; xff; xff; xff; xff];
     rb_body := [xff; x0a] |}.

(** A [jxlc] box that declares 32 bytes and holds the three bytes that are
    left in the file, and a [jxlp] box that does the same behind its
    index. *)
Definition short_jxlc : raw_box :=
  {| rb_size := [x00; x00; x00; x20]; rb_type := jxlc; rb_ext := [];
     rb_body := [xff; x0a; x01] |}.

Definition short_jxlp : raw_box :=
  {| rb_size := [x00; x00; x00; x20]; rb_type := jxlp; rb_ext := [];
     rb_body := [x00; x00; x00; x00; xff; x0a; x01] |}.

(** Three [jxlp] boxes written in the order of indices 2, 0, 1, with a
    [free] box among them. *)
Definition scrambled : list raw_box :=
  [jxlp_box x02 x05 x06; free_box; jxlp_box x00 xff x0a; jxlp_box x01 x03 x04].

(** ** The detector and the command line *)

(** The block under [try:] in [is_jxl_container]: [Some b] is [return b]
    inside the block, [None] is leaving the block without a [return]. *)
Definition is_jxl_container_body (plat : platform) (data : bytes)
  : M (option bool) :=
  sig <- f_read plat data 12 ;;
  if bytes_eqb (take 4 sig) container_sig then ret (Some true)
  else if bytes_eqb (take 2 sig) codestream_magic then ret (Some false)
  else ret None.

(** [is_jxl_container(filepath)]: the bare [except: pass] and the final
    [return False] turn every exception and the fall-through into [False].
    [input = None] is a path that cannot be opened. *)
Definition is_jxl_container (plat : platform) (input : option bytes) : bool :=
  match input with
  | None => false
  | Some data =>
      match is_jxl_container_body plat data start with
      | Ret (Some b) _ => b
      | Ret None _ => false
      | Raise _ _ => false
      | OutOfFuel => false
      end
  end.







(** The sum of the payload lengths of a list of parts. *)
Definition payload_length (l : list part) : nat :=
  list_sum (map (fun p => length (snd p)) l).

(** A box header whose 64-bit size field is cut off by the end of the file:
    [rb_ext] holds the bytes that are there. *)
Definition cut_header (r : raw_box) : bool :=
  Nat.eqb (length (rb_size r)) 4 && Nat.eqb (length (rb_type r)) 4
  && (be_value (rb_size r) =? 1) && (length (rb_ext r) <? 8)%nat.

(** ** Lists of bytes *)

Lemma take_firstn (n : Z) (l : bytes) : take n l = firstn (Z.to_nat n) l.
Proof.
  revert n; induction l as [|b l IH]; intros n; simpl.
  - now rewrite firstn_nil.
  - destruct (Z.leb_spec n 0) as [H|H].
    + replace (Z.to_nat n) with 0%nat by lia. reflexivity.
    + replace (Z.to_nat n) with (S (Z.to_nat (n - 1))) by lia.
      simpl. now rewrite IH.
Qed.

Lemma drop_skipn (n : Z) (l : bytes) : drop n l = skipn (Z.to_nat n) l.
Proof.
  revert n; induction l as [|b l IH]; intros n; simpl.
  - now rewrite skipn_nil.
  - destruct (Z.leb_spec n 0) as [H|H].
    + replace (Z.to_nat n) with 0%nat by lia. reflexivity.
    + replace (Z.to_nat n) with (S (Z.to_nat (n - 1))) by lia.
      simpl. now rewrite IH.
Qed.

Lemma take_app_exact (a b : bytes) : take (Z.of_nat (length a)) (a ++ b) = a.
Proof.
  rewrite take_firstn, Nat2Z.id.
  rewrite firstn_app, Nat.sub_diag, firstn_all. simpl. apply app_nil_r.
Qed.

Lemma drop_app_exact (a b : bytes) : drop (Z.of_nat (length a)) (a ++ b) = b.
Proof.
  rewrite drop_skipn, Nat2Z.id.
  rewrite skipn_app, Nat.sub_diag, skipn_all. reflexivity.
Qed.

Lemma take_all (n : Z) (l : bytes) :
  Z.of_nat (length l) <= n -> take n l = l.
Proof.
  intros H. rewrite take_firstn. apply firstn_all2. lia.
Qed.

Lemma take_drop (n : Z) (l : bytes) : take n l ++ drop n l = l.
Proof. rewrite take_firstn, drop_skipn. apply firstn_skipn. Qed.

Lemma length_take (n : Z) (l : bytes) :
  0 <= n -> Z.of_nat (length (take n l)) = Z.min n (Z.of_nat (length l)).
Proof.
  intros H. rewrite take_firstn, length_firstn. lia.
Qed.

Lemma drop_drop (n m : Z) (l : bytes) :
  0 <= n -> 0 <= m -> drop (n + m) l = drop m (drop n l).
Proof.
  intros Hn Hm. rewrite !drop_skipn, skipn_skipn.
  f_equal. lia.
Qed.

Lemma be_value_app (a b : bytes) :
  be_value (a ++ b) = be_value a * 256 ^ Z.of_nat (length b) + be_value b.
Proof.
  unfold be_value.
  assert (G : forall (l : bytes) (acc : Z),
             fold_left (fun acc b => acc * 256 + Z.of_N (Byte.to_N b)) l acc
             = acc * 256 ^ Z.of_nat (length l)
               + fold_left (fun acc b => acc * 256 + Z.of_N (Byte.to_N b)) l 0).
  { induction l as [|x l IH]; intros acc.
    - simpl. lia.
    - cbn [fold_left length]. rewrite IH.
      rewrite (IH (0 * 256 + _)).
      rewrite Nat2Z.inj_succ, Z.pow_succ_r by lia. ring. }
  rewrite fold_left_app, G. reflexivity.
Qed.

Lemma be_value_bounds (d : bytes) :
  0 <= be_value d < 256 ^ Z.of_nat (length d).
Proof.
  induction d as [|x d IH] using rev_ind.
  - cbn. lia.
  - rewrite be_value_app, length_app. cbn [length].
    replace (Z.of_nat (length d + 1)) with (Z.succ (Z.of_nat (length d))) by lia.
    rewrite Z.pow_succ_r by lia.
    assert (Hx : 0 <= be_value [x] < 256).
    { unfold be_value. cbn [fold_left].
      pose proof (Byte.to_N_bounded x). lia. }
    change (256 ^ Z.of_nat 1) with 256. nia.
Qed.

Lemma bytes_eqb_eq (a b : bytes) : bytes_eqb a b = true <-> a = b.
Proof.
  revert b; induction a as [|x a IH]; intros [|y b]; simpl;
    try (split; [discriminate | discriminate]); try tauto.
  rewrite andb_true_iff, IH. split.
  - intros [H1 H2]. apply Byte.byte_dec_bl in H1. now subst.
  - intros H. injection H as -> ->. split; [now apply Byte.byte_dec_lb | reflexivity].
Qed.

Lemma bytes_eqb_refl (a : bytes) : bytes_eqb a a = true.
Proof. now apply bytes_eqb_eq. Qed.

Lemma bytes_eqb_neq (a b : bytes) : bytes_eqb a b = false <-> a <> b.
Proof.
  rewrite <- bytes_eqb_eq. destruct (bytes_eqb a b); split; congruence.
Qed.

(** ** The sort *)

Lemma insert_part_perm (p : part) (l : list part) :
  Permutation (p :: l) (insert_part p l).
Proof.
  induction l as [|q l IH]; simpl.
  - apply Permutation_refl.
  - destruct (fst p <=? fst q).
    + apply Permutation_refl.
    + eapply perm_trans; [apply perm_swap|]. now apply perm_skip.
Qed.

Lemma sort_by_index_perm (l : list part) : Permutation l (sort_by_index l).
Proof.
  induction l as [|p l IH]; simpl.
  - constructor.
  - eapply perm_trans; [apply perm_skip, IH | apply insert_part_perm].
Qed.

Lemma insert_part_hd (p d : part) (l : list part) :
  HdRel index_le d l -> index_le d p -> HdRel index_le d (insert_part p l).
Proof.
  intros Hl Hp. destruct l as [|q l]; simpl.
  - now constructor.
  - destruct (fst p <=? fst q); constructor; auto.
    now inversion Hl.
Qed.

Lemma insert_part_sorted (p : part) (l : list part) :
  Sorted index_le l -> Sorted index_le (insert_part p l).
Proof.
  induction l as [|q l IH]; intros Hs; simpl.
  - repeat constructor.
  - inversion Hs as [|? ? Hs' Hhd]; subst.
    destruct (Z.leb_spec (fst p) (fst q)) as [Hle|Hgt].
    + constructor; [assumption | constructor; exact Hle].
    + constructor; [now apply IH |].
      apply insert_part_hd; [assumption | unfold index_le; lia].
Qed.

Lemma sort_by_index_sorted (l : list part) : Sorted index_le (sort_by_index l).
Proof.
  induction l as [|p l IH]; simpl.
  - constructor.
  - now apply insert_part_sorted.
Qed.

Lemma insert_part_stable (k : Z) (p : part) (l : list part) :
  filter (has_index k) (insert_part p l) = filter (has_index k) (p :: l).
Proof.
  induction l as [|q l IH]; [reflexivity|].
  cbn [insert_part]. destruct (Z.leb_spec (fst p) (fst q)) as [Hle|Hgt].
  - reflexivity.
  - cbn [filter] in *. rewrite IH. unfold has_index.
    destruct (Z.eqb_spec (fst q) k), (Z.eqb_spec (fst p) k); try reflexivity.
    lia.
Qed.

(** Parts of equal index keep their order. *)
Lemma sort_by_index_stable (k : Z) (l : list part) :
  filter (has_index k) (sort_by_index l) = filter (has_index k) l.
Proof.
  induction l as [|p l IH]; [reflexivity|].
  cbn [sort_by_index]. rewrite insert_part_stable.
  cbn [filter]. now rewrite IH.
Qed.

Lemma merge_single (p : part) : merge [p] = snd p.
Proof. unfold merge, join_parts. cbn. apply app_nil_r. Qed.

(** Sorted or not, a list of at most one part merges to the same bytes, so
    [merge] always joins the sorted list. *)
Lemma merge_sorted (l : list part) : merge l = join_parts (sort_by_index l).
Proof.
  unfold merge. destruct l as [|p [|q l]]; reflexivity.
Qed.

(** ** The file primitives *)

Section Primitives.

Variable plat : platform.
Variable data : bytes.

Lemma remaining_moved (s : handles) (chunk rest : bytes) :
  0 <= f_pos s ->
  remaining data s = chunk ++ rest ->
  remaining data (moved s (Z.of_nat (length chunk))) = rest.
Proof.
  unfold remaining. intros Hp Hr. cbn [f_pos moved].
  rewrite drop_drop, Hr by lia. apply drop_app_exact.
Qed.

(** A read of exactly the bytes that lie at the cursor. *)
Lemma f_read_chunk (s : handles) (chunk rest : bytes) :
  remaining data s = chunk ++ rest ->
  Z.of_nat (length chunk) <= max_read plat ->
  f_read plat data (Z.of_nat (length chunk)) s
  = Ret chunk (moved s (Z.of_nat (length chunk))).
Proof.
  intros Hr Hm. unfold f_read.
  destruct (Z.ltb_spec (Z.of_nat (length chunk)) (-1)); [lia|].
  destruct (Z.eqb_spec (Z.of_nat (length chunk)) (-1)); [lia|].
  destruct (Z.ltb_spec (max_read plat) (Z.of_nat (length chunk))); [lia|].
  fold (remaining data s). rewrite Hr, take_app_exact. reflexivity.
Qed.

(** A read that asks for more than is left returns what is left. *)
Lemma f_read_short (s : handles) (n : Z) :
  Z.of_nat (length (remaining data s)) <= n ->
  n <= max_read plat ->
  f_read plat data n s
  = Ret (remaining data s) (moved s (Z.of_nat (length (remaining data s)))).
Proof.
  intros Hn Hm. unfold f_read.
  destruct (Z.ltb_spec n (-1)); [lia|].
  destruct (Z.eqb_spec n (-1)); [lia|].
  destruct (Z.ltb_spec (max_read plat) n); [lia|].
  fold (remaining data s). rewrite take_all by lia. reflexivity.
Qed.

Lemma f_read_at_eof (s : handles) (n : Z) :
  remaining data s = [] -> 0 <= n <= max_read plat -> f_read plat data n s = Ret [] s.
Proof.
  intros Hr Hn. rewrite f_read_short by (try rewrite Hr; cbn; lia).
  rewrite Hr. cbn. unfold moved. rewrite Z.add_0_r. now destruct s.
Qed.

End Primitives.

(** ** Reading headers and passing over boxes *)

Section Scan.

Variable plat : platform.
Variable data : bytes.

Lemma moved_moved (s : handles) (a b : Z) :
  moved (moved s a) b = moved s (a + b).
Proof. unfold moved. cbn. f_equal. lia. Qed.

Lemma moved_0 (s : handles) : moved s 0 = s.
Proof. unfold moved. rewrite Z.add_0_r. now destruct s. Qed.

Lemma f_read_exact (s : handles) (n : Z) (chunk rest : bytes) :
  remaining data s = chunk ++ rest ->
  n = Z.of_nat (length chunk) ->
  n <= max_read plat ->
  f_read plat data n s = Ret chunk (moved s n).
Proof. intros Hr -> Hm. now apply f_read_chunk with (rest := rest). Qed.

Lemma remaining_step (s : handles) (n : Z) (chunk rest : bytes) :
  0 <= f_pos s ->
  remaining data s = chunk ++ rest ->
  n = Z.of_nat (length chunk) ->
  remaining data (moved s n) = rest.
Proof. intros Hp Hr ->. now apply remaining_moved. Qed.

Lemma header_ok_lengths (r : raw_box) :
  header_ok r = true ->
  length (rb_size r) = 4%nat /\ length (rb_type r) = 4%nat
  /\ length (rb_ext r) = (if extended r then 8 else 0)%nat.
Proof.
  unfold header_ok. rewrite !andb_true_iff, !Nat.eqb_eq. tauto.
Qed.

Lemma length_box_bytes (r : raw_box) :
  header_ok r = true ->
  Z.of_nat (length (box_bytes r))
  = header_length r + Z.of_nat (length (rb_body r)).
Proof.
  intros H. apply header_ok_lengths in H as (H1 & H2 & H3).
  unfold box_bytes, header_length. rewrite !length_app, H1, H2, H3.
  destruct (extended r); lia.
Qed.

(** On a header that is present in full, [read_box] returns the type tag,
    the declared size, the header length and the offset at which the header
    starts, and leaves the cursor behind the header. *)
Lemma read_box_header (s : handles) (r : raw_box) (rest : bytes) :
  0 <= f_pos s ->
  8 <= max_read plat ->
  header_ok r = true ->
  remaining data s = box_bytes r ++ rest ->
  read_box plat data s
  = Ret (Some {| box_type := rb_type r; size := declared_size r;
                 header_size := header_length r; box_start := f_pos s |})
        (moved s (header_length r)).
Proof.
  intros Hp Hm Hok Hr. apply header_ok_lengths in Hok as (H1 & H2 & H3).
  unfold box_bytes in Hr. rewrite <- !app_assoc in Hr.
  unfold read_box, bind.
  rewrite (f_read_exact s 4 _ _ Hr) by (rewrite ?H1; lia).
  rewrite H1. cbn [Nat.ltb Nat.leb].
  unfold unpack at 1. rewrite H1. cbn [Nat.eqb ret].
  assert (Hr1 := remaining_step s 4 _ _ Hp Hr ltac:(rewrite H1; lia)).
  rewrite (f_read_exact _ 4 _ _ Hr1) by (rewrite ?H2; cbn; lia).
  assert (Hr2 := remaining_step (moved s 4) 4 _ _ ltac:(cbn; lia) Hr1
                   ltac:(rewrite H2; lia)).
  unfold declared_size, header_length. fold (extended r).
  destruct (extended r) eqn:E.
  - rewrite (f_read_exact _ 8 _ _ Hr2) by (rewrite ?H3; cbn; lia).
    unfold unpack, f_tell, ret. rewrite H3. cbn [Nat.eqb].
    rewrite !moved_moved. cbn [f_pos moved Z.add].
    do 3 f_equal. lia.
  - unfold f_tell, ret. rewrite !moved_moved. cbn [f_pos moved Z.add].
    do 3 f_equal. lia.
Qed.

Lemma remaining_after_header (s : handles) (r : raw_box) (rest : bytes) :
  0 <= f_pos s ->
  header_ok r = true ->
  remaining data s = box_bytes r ++ rest ->
  remaining data (moved s (header_length r)) = rb_body r ++ rest.
Proof.
  intros Hp Hok Hr. apply header_ok_lengths in Hok as (H1 & H2 & H3).
  unfold box_bytes in Hr.
  replace (rb_size r ++ rb_type r ++ rb_ext r ++ rb_body r)
    with ((rb_size r ++ rb_type r ++ rb_ext r) ++ rb_body r) in Hr
    by now rewrite <- !app_assoc.
  rewrite <- app_assoc in Hr.
  apply (remaining_step s _ _ _ Hp Hr).
  unfold header_length. rewrite !length_app, H1, H2, H3.
  destruct (extended r); lia.
Qed.

(** One pass of the loop over a box that is not [jxlc]: a [jxlp] box adds
    its segment, any other box is skipped, and the cursor ends at the first
    byte behind the box. *)
Lemma loop_body_scannable (s : handles) (r : raw_box) (rest : bytes)
    (parts : list part) :
  0 <= f_pos s ->
  8 <= max_read plat ->
  Z.of_nat (length (rb_body r)) <= max_read plat ->
  f_pos s + Z.of_nat (length (box_bytes r)) <= max_offset plat ->
  scannable r = true ->
  remaining data s = box_bytes r ++ rest ->
  loop_body plat data parts s
  = Ret (Continue (parts ++ segment_of r))
        (moved s (Z.of_nat (length (box_bytes r)))).
Proof.
  intros Hp Hm Hbody Hoff Hsc Hr.
  unfold scannable, well_formed in Hsc.
  rewrite !andb_true_iff, negb_true_iff, Z.eqb_eq in Hsc.
  destruct Hsc as [[[Hok Hsz] Hc] Hidx].
  pose proof (length_box_bytes r Hok) as Hlen.
  assert (Hh : 8 <= header_length r <= 16)
    by (unfold header_length; destruct (extended r); lia).
  unfold loop_body, bind at 1.
  rewrite (read_box_header s r rest Hp Hm Hok Hr).
  pose proof (remaining_after_header s r rest Hp Hok Hr) as Hr'.
  unfold handle_box. cbn [box_type size header_size box_start].
  unfold is_jxlc in Hc. rewrite Hc. fold (is_jxlp r).
  unfold segment_of. destruct (is_jxlp r) eqn:Ep.
  - cbn [negb orb] in Hidx. apply Nat.leb_le in Hidx.
    rewrite <- (take_drop 4 (rb_body r)), <- app_assoc in Hr'.
    assert (H4 : Z.of_nat (length (take 4 (rb_body r))) = 4)
      by (rewrite length_take; lia).
    unfold bind.
    rewrite (f_read_exact _ 4 _ _ Hr') by lia.
    assert (Hr'' := remaining_step (moved s (header_length r)) 4 _ _
                     ltac:(cbn [f_pos moved]; lia) Hr' ltac:(lia)).
    unfold unpack. replace (length (take 4 (rb_body r))) with 4%nat by lia.
    cbn [Nat.eqb ret].
    assert (Hd : Z.of_nat (length (drop 4 (rb_body r)))
                 = Z.of_nat (length (rb_body r)) - 4).
    { pose proof (f_equal (@length byte) (take_drop 4 (rb_body r))) as E.
      rewrite length_app in E. lia. }
    rewrite (f_read_exact _ (declared_size r - header_length r - 4) _ _ Hr'')
      by lia.
    unfold ret. rewrite !moved_moved. do 2 f_equal. lia.
  - unfold bind, f_seek. cbn [f_pos moved written].
    destruct (Z.ltb_spec (f_pos s + declared_size r) 0); [lia|].
    destruct (Z.ltb_spec (max_offset plat) (f_pos s + declared_size r));
      [lia|].
    cbn [orb]. unfold ret, moved. rewrite app_nil_r. do 2 f_equal. lia.
Qed.

(** The loop over a run of such boxes. *)
Lemma collect_scan (boxes : list raw_box) :
  forall (s : handles) (rest : bytes) (parts : list part) (k : nat),
  0 <= f_pos s ->
  8 <= max_read plat ->
  Z.of_nat (length (boxes_bytes boxes)) <= max_read plat ->
  f_pos s + Z.of_nat (length (boxes_bytes boxes)) <= max_offset plat ->
  forallb scannable boxes = true ->
  remaining data s = boxes_bytes boxes ++ rest ->
  collect plat data (length boxes + k) parts s
  = collect plat data k (parts ++ segments_of boxes)
      (moved s (Z.of_nat (length (boxes_bytes boxes)))).
Proof.
  induction boxes as [|r boxes IH]; intros s rest parts k Hp Hm Hrd Hoff Hall Hr.
  - cbn. now rewrite app_nil_r, moved_0.
  - cbn [forallb] in Hall. apply andb_true_iff in Hall as [Hsc Hall].
    unfold boxes_bytes in *. cbn [map concat] in *.
    rewrite length_app in Hrd, Hoff. rewrite <- app_assoc in Hr.
    assert (Hok : header_ok r = true).
    { unfold scannable, well_formed in Hsc.
      rewrite !andb_true_iff in Hsc. tauto. }
    pose proof (length_box_bytes r Hok) as Hlen.
    assert (Hh : 8 <= header_length r)
      by (unfold header_length; destruct (extended r); lia).
    cbn [length Nat.add collect]. unfold bind at 1.
    rewrite (loop_body_scannable s r (concat (map box_bytes boxes) ++ rest)
               parts Hp Hm) by (assumption || lia).
    rewrite (IH _ rest) ; try assumption; try (cbn [f_pos moved]; lia).
    + rewrite moved_moved, length_app, Nat2Z.inj_add.
      cbn [segments_of flat_map]. unfold segments_of. now rewrite app_assoc.
    + now apply (remaining_step s _ _ _ Hp Hr).
Qed.

End Scan.

(** ** The end of the scan *)

Section ScanEnd.

Variable plat : platform.
Variable data : bytes.

Lemma read_box_eof (s : handles) :
  remaining data s = [] ->
  4 <= max_read plat ->
  read_box plat data s = Ret None s.
Proof.
  intros Hr Hm. unfold read_box, bind.
  rewrite (f_read_at_eof plat data s 4 Hr) by lia. reflexivity.
Qed.

Lemma loop_body_eof (s : handles) (parts : list part) :
  remaining data s = [] ->
  4 <= max_read plat ->
  loop_body plat data parts s = Ret (Break parts) s.
Proof.
  intros Hr Hm. unfold loop_body, bind. now rewrite read_box_eof.
Qed.

(** A [jxlc] box ends the loop.  Its declared payload is either all there,
    or the file ends inside it and the read returns what is left. *)
Lemma loop_body_jxlc (s : handles) (r : raw_box) (rest : bytes)
    (parts : list part) :
  0 <= f_pos s ->
  8 <= max_read plat ->
  header_ok r = true ->
  is_jxlc r = true ->
  remaining data s = box_bytes r ++ rest ->
  declared_size r - header_length r <= max_read plat ->
  (declared_size r - header_length r = Z.of_nat (length (rb_body r))
   \/ (rest = []
       /\ Z.of_nat (length (rb_body r)) <= declared_size r - header_length r)) ->
  loop_body plat data parts s
  = Ret (Break (parts ++ [(0, rb_body r)]))
        (moved s (Z.of_nat (length (box_bytes r)))).
Proof.
  intros Hp Hm Hok Hc Hr Hn Hcase.
  pose proof (length_box_bytes r Hok) as Hlen.
  unfold loop_body, bind at 1.
  rewrite (read_box_header plat data s r rest Hp Hm Hok Hr).
  pose proof (remaining_after_header data s r rest Hp Hok Hr) as Hr'.
  unfold handle_box. cbn [box_type size header_size box_start].
  unfold is_jxlc in Hc. rewrite Hc. unfold bind, ret.
  destruct Hcase as [Hex | [-> Hshort]].
  - rewrite (f_read_exact plat data _ _ _ _ Hr' Hex Hn).
    rewrite moved_moved. do 2 f_equal. lia.
  - rewrite app_nil_r in Hr'.
    rewrite f_read_short by (rewrite ?Hr'; lia).
    rewrite Hr', moved_moved. do 2 f_equal. lia.
Qed.

(** A [jxlp] box inside which the file ends: the index is there, the
    payload is what is left. *)
Lemma loop_body_jxlp_short (s : handles) (r : raw_box) (parts : list part) :
  0 <= f_pos s ->
  8 <= max_read plat ->
  header_ok r = true ->
  is_jxlc r = false ->
  is_jxlp r = true ->
  (4 <= length (rb_body r))%nat ->
  remaining data s = box_bytes r ->
  declared_size r - header_length r - 4 <= max_read plat ->
  Z.of_nat (length (rb_body r)) - 4 <= declared_size r - header_length r - 4 ->
  loop_body plat data parts s
  = Ret (Continue (parts ++ segment_of r))
        (moved s (Z.of_nat (length (box_bytes r)))).
Proof.
  intros Hp Hm Hok Hc Hj Hidx Hr Hn Hshort.
  pose proof (length_box_bytes r Hok) as Hlen.
  assert (Hh : 8 <= header_length r <= 16)
    by (unfold header_length; destruct (extended r); lia).
  rewrite <- (app_nil_r (box_bytes r)) in Hr.
  unfold loop_body, bind at 1.
  rewrite (read_box_header plat data s r [] Hp Hm Hok Hr).
  pose proof (remaining_after_header data s r [] Hp Hok Hr) as Hr'.
  unfold handle_box. cbn [box_type size header_size box_start].
  unfold is_jxlc in Hc. rewrite Hc. fold (is_jxlp r). rewrite Hj.
  unfold segment_of. rewrite Hj.
  rewrite app_nil_r, <- (take_drop 4 (rb_body r)) in Hr'.
  assert (H4 : Z.of_nat (length (take 4 (rb_body r))) = 4)
    by (rewrite length_take; lia).
  assert (Hd : Z.of_nat (length (drop 4 (rb_body r)))
               = Z.of_nat (length (rb_body r)) - 4).
  { pose proof (f_equal (@length byte) (take_drop 4 (rb_body r))) as E.
    rewrite length_app in E. lia. }
  unfold bind.
  rewrite (f_read_exact plat data _ 4 _ _ Hr') by lia.
  assert (Hr'' := remaining_step data (moved s (header_length r)) 4 _ _
                    ltac:(cbn [f_pos moved]; lia) Hr' ltac:(lia)).
  unfold unpack. replace (length (take 4 (rb_body r))) with 4%nat by lia.
  cbn [Nat.eqb ret].
  rewrite f_read_short by (rewrite ?Hr''; lia).
  rewrite Hr''. unfold ret. rewrite !moved_moved. do 2 f_equal. lia.
Qed.

(** Nothing in the scan touches the output file. *)
Lemma keeps_output_ret {A} (a : A) : keeps_output (ret a).
Proof. intros s. reflexivity. Qed.

Lemma keeps_output_bind {A B} (c : M A) (k : A -> M B) :
  keeps_output c -> (forall a, keeps_output (k a)) -> keeps_output (bind c k).
Proof.
  intros Hc Hk s. unfold bind. specialize (Hc s).
  destruct (c s) as [a s'| |]; auto.
  specialize (Hk a s'). destruct (k a s'); congruence.
Qed.

Lemma keeps_output_read (n : Z) : keeps_output (f_read plat data n).
Proof.
  intros s. unfold f_read.
  destruct (n <? -1); [reflexivity|].
  destruct (max_read plat <? _); reflexivity.
Qed.

Lemma keeps_output_seek (p : Z) : keeps_output (f_seek plat p).
Proof. intros s. unfold f_seek. destruct (_ || _); reflexivity. Qed.

Lemma keeps_output_unpack (w : nat) (d : bytes) : keeps_output (unpack w d).
Proof. intros s. unfold unpack. destruct (Nat.eqb _ _); reflexivity. Qed.

Ltac keeps_output_step :=
  first [ apply keeps_output_ret
        | apply keeps_output_read
        | apply keeps_output_seek
        | apply keeps_output_unpack
        | apply keeps_output_bind; [|intro]
        | intros ?; reflexivity ].

Lemma keeps_output_read_box : keeps_output (read_box plat data).
Proof.
  unfold read_box. repeat keeps_output_step.
  destruct (length _ <? 4)%nat; repeat keeps_output_step.
  destruct (_ =? 1); repeat keeps_output_step.
Qed.

Lemma keeps_output_loop_body (parts : list part) :
  keeps_output (loop_body plat data parts).
Proof.
  unfold loop_body.
  apply keeps_output_bind; [apply keeps_output_read_box | intros [b|]];
    [|apply keeps_output_ret].
  unfold handle_box.
  destruct (bytes_eqb (box_type b) jxlc); repeat keeps_output_step.
  destruct (bytes_eqb (box_type b) jxlp); repeat keeps_output_step.
Qed.

Lemma keeps_output_collect (fuel : nat) :
  forall parts, keeps_output (collect plat data fuel parts).
Proof.
  induction fuel as [|fuel IH]; intros parts.
  - intros s. exact I.
  - cbn [collect].
    apply keeps_output_bind; [apply keeps_output_loop_body | intros [p|p]].
    + apply keeps_output_ret.
    + apply IH.
Qed.

End ScanEnd.

(** ** The orchestration *)

Lemma drop_0 (l : bytes) : drop 0 l = l.
Proof. destruct l; reflexivity. Qed.

Lemma take_take (a b : Z) (l : bytes) :
  a <= b -> take a (take b l) = take a l.
Proof.
  intros H. rewrite !take_firstn, firstn_firstn. f_equal. lia.
Qed.

Lemma read_signature (plat : platform) (data : bytes) :
  12 <= max_read plat ->
  f_read plat data 12 start = Ret (take 12 data) (after_signature data).
Proof.
  intros Hm. unfold f_read, remaining. cbn [f_pos start].
  rewrite drop_0. cbn [Z.ltb Z.eqb Z.compare].
  destruct (Z.ltb_spec (max_read plat) 12); [lia|]. reflexivity.
Qed.

(** What a call on a container comes to, in terms of the scan. *)
Lemma extract_container (plat : platform) (data : bytes) (fuel : nat) :
  12 <= max_read plat ->
  take 4 data = container_sig ->
  extract_codestream plat (Some data) fuel
  = match collect plat data fuel [] (after_signature data) with
    | Ret [] _ => Some (false, None)
    | Ret parts _ =>
        if out_writable plat
        then Some (has_magic (merge parts), Some (merge parts))
        else Some (false, None)
    | Raise _ _ => Some (false, None)
    | OutOfFuel => None
    end.
Proof.
  intros Hm Hsig. unfold extract_codestream, extract_body, bind at 1.
  rewrite read_signature by assumption.
  rewrite take_take, Hsig by lia. rewrite bytes_eqb_refl. cbn [negb].
  unfold bind at 1.
  pose proof (keeps_output_collect plat data fuel [] (after_signature data))
    as Hk.
  destruct (collect plat data fuel [] (after_signature data))
    as [parts s | e s |]; cbn [written after_signature] in Hk.
  - destruct parts as [|p parts].
    + cbn. now rewrite Hk.
    + unfold bind, out_open, out_write.
      destruct (out_writable plat).
      * cbn [written f_pos app]. unfold has_magic.
        destruct (bytes_eqb _ codestream_magic); reflexivity.
      * cbn. now rewrite Hk.
  - cbn. now rewrite Hk.
  - reflexivity.
Qed.

Lemma container_header_sig (sig rest : bytes) :
  container_header sig = true -> take 4 (sig ++ rest) = container_sig.
Proof.
  intros Hsig. apply andb_true_iff in Hsig as [Hlen Hs].
  apply Nat.eqb_eq in Hlen. apply bytes_eqb_eq in Hs.
  rewrite <- Hs. rewrite <- (take_take 4 12) by lia.
  replace 12 with (Z.of_nat (length sig)) by lia.
  now rewrite take_app_exact.
Qed.

(** The state in which the cursor stands [n] bytes into the file. *)
Lemma after_signature_12 (sig rest : bytes) :
  container_header sig = true ->
  after_signature (sig ++ rest) = moved start 12.
Proof.
  intros Hsig. apply andb_true_iff in Hsig as [Hlen _].
  apply Nat.eqb_eq in Hlen. unfold after_signature.
  replace 12 with (Z.of_nat (length sig)) at 1 by lia.
  rewrite take_app_exact, Hlen. reflexivity.
Qed.

(** A container that starts with a signature box and a run of boxes none of
    which is [jxlc]: the scan passes over the run, collects the segments of
    its [jxlp] boxes in file order, and goes on behind it. *)
Lemma scan_prefix (plat : platform) (sig : bytes) (boxes : list raw_box)
    (rest : bytes) (k : nat) :
  container_header sig = true ->
  forallb scannable boxes = true ->
  fits plat (sig ++ boxes_bytes boxes ++ rest) ->
  let data := sig ++ boxes_bytes boxes ++ rest in
  let s1 := moved start (Z.of_nat (length (sig ++ boxes_bytes boxes))) in
  collect plat data (length boxes + k) [] (after_signature data)
  = collect plat data k (segments_of boxes) s1
  /\ remaining data s1 = rest.
Proof.
  intros Hsig Hall (Hm & Hrd & Hoff) data s1.
  unfold data at 2. rewrite (after_signature_12 _ _ Hsig).
  apply andb_true_iff in Hsig as [Hlen _]. apply Nat.eqb_eq in Hlen.
  rewrite !length_app in Hrd, Hoff.
  assert (Hr : remaining data (moved start 12) = boxes_bytes boxes ++ rest).
  { unfold remaining, data. cbn [f_pos moved start Z.add].
    replace 12 with (Z.of_nat (length sig)) by lia.
    now rewrite drop_app_exact. }
  assert (Hs1 : s1 = moved (moved start 12)
                       (Z.of_nat (length (boxes_bytes boxes)))).
  { unfold s1. rewrite moved_moved, length_app. f_equal. lia. }
  split.
  - rewrite (collect_scan plat data boxes (moved start 12) rest [] k)
      by (assumption || (cbn [f_pos moved start]; lia)).
    now rewrite Hs1.
  - rewrite Hs1.
    apply (remaining_step data (moved start 12) _ (boxes_bytes boxes) rest);
      [cbn; lia | exact Hr | reflexivity].
Qed.

Lemma segments_of_skipped (boxes : list raw_box) :
  forallb skipped boxes = true -> segments_of boxes = [].
Proof.
  induction boxes as [|r boxes IH]; [reflexivity|].
  cbn [forallb]. rewrite andb_true_iff. intros [Hr Hall].
  unfold segments_of in *. cbn [flat_map]. rewrite (IH Hall), app_nil_r.
  unfold skipped in Hr. rewrite !andb_true_iff, !negb_true_iff in Hr.
  destruct Hr as [_ Hp]. unfold segment_of. now rewrite Hp.
Qed.

Lemma skipped_scannable (boxes : list raw_box) :
  forallb skipped boxes = true -> forallb scannable boxes = true.
Proof.
  induction boxes as [|r boxes IH]; [reflexivity|].
  cbn [forallb]. rewrite !andb_true_iff. intros [Hr Hall].
  split; [|now apply IH].
  unfold skipped in Hr. unfold scannable.
  rewrite !andb_true_iff in *. destruct Hr as [[Hw Hc] Hp].
  rewrite Hw, Hc, Hp. auto.
Qed.

(** The scan of a container that holds nothing else. *)
Lemma collect_all (plat : platform) (sig : bytes) (boxes : list raw_box)
    (fuel : nat) :
  container_header sig = true ->
  forallb scannable boxes = true ->
  fits plat (sig ++ boxes_bytes boxes) ->
  (length boxes < fuel)%nat ->
  collect plat (sig ++ boxes_bytes boxes) fuel []
    (after_signature (sig ++ boxes_bytes boxes))
  = Ret (segments_of boxes)
        (moved start (Z.of_nat (length (sig ++ boxes_bytes boxes)))).
Proof.
  intros Hsig Hall Hfits Hfuel.
  pose proof Hfits as (Hm & _).
  replace fuel with (length boxes + S (fuel - S (length boxes)))%nat by lia.
  pose proof (scan_prefix plat sig boxes [] (S (fuel - S (length boxes)))
                Hsig Hall) as H.
  rewrite app_nil_r in H. destruct (H Hfits) as [Hc Hr].
  rewrite Hc. cbn [collect]. unfold bind.
  rewrite loop_body_eof by (assumption || lia).
  reflexivity.
Qed.

(** The scan of a container in which a [jxlc] box follows such a run: the
    loop ends behind the [jxlc] box, whatever comes after it. *)
Lemma collect_jxlc (plat : platform) (sig : bytes) (boxes : list raw_box)
    (jx : raw_box) (rest : bytes) (fuel : nat) :
  container_header sig = true ->
  forallb scannable boxes = true ->
  header_ok jx = true ->
  is_jxlc jx = true ->
  fits plat (sig ++ boxes_bytes boxes ++ box_bytes jx ++ rest) ->
  declared_size jx - header_length jx <= max_read plat ->
  (declared_size jx - header_length jx = Z.of_nat (length (rb_body jx))
   \/ (rest = []
       /\ Z.of_nat (length (rb_body jx))
          <= declared_size jx - header_length jx)) ->
  (length boxes < fuel)%nat ->
  let data := sig ++ boxes_bytes boxes ++ box_bytes jx ++ rest in
  collect plat data fuel [] (after_signature data)
  = Ret (segments_of boxes ++ [(0, rb_body jx)])
        (moved start
           (Z.of_nat (length (sig ++ boxes_bytes boxes ++ box_bytes jx)))).
Proof.
  intros Hsig Hall Hok Hc Hfits Hn Hcase Hfuel data.
  pose proof Hfits as (Hm & _).
  replace fuel with (length boxes + S (fuel - S (length boxes)))%nat by lia.
  destruct (scan_prefix plat sig boxes (box_bytes jx ++ rest)
              (S (fuel - S (length boxes))) Hsig Hall Hfits) as [Hs Hr].
  fold data in Hs, Hr. rewrite Hs. cbn [collect]. unfold bind.
  rewrite (loop_body_jxlc plat data _ jx rest) ;
    try assumption; try (cbn [f_pos moved start]; lia).
  unfold ret. rewrite moved_moved. f_equal. f_equal.
  rewrite !length_app. lia.
Qed.

(** The call on such a container writes the merge of the segments. *)
Lemma extract_jxlc (plat : platform) (sig : bytes) (boxes : list raw_box)
    (jx : raw_box) (rest : bytes) (fuel : nat) :
  container_header sig = true ->
  forallb scannable boxes = true ->
  header_ok jx = true ->
  is_jxlc jx = true ->
  fits plat (sig ++ boxes_bytes boxes ++ box_bytes jx ++ rest) ->
  declared_size jx - header_length jx <= max_read plat ->
  (declared_size jx - header_length jx = Z.of_nat (length (rb_body jx))
   \/ (rest = []
       /\ Z.of_nat (length (rb_body jx))
          <= declared_size jx - header_length jx)) ->
  out_writable plat = true ->
  (length boxes < fuel)%nat ->
  let parts := segments_of boxes ++ [(0, rb_body jx)] in
  extract_codestream plat
    (Some (sig ++ boxes_bytes boxes ++ box_bytes jx ++ rest)) fuel
  = Some (has_magic (merge parts), Some (merge parts)).
Proof.
  intros Hsig Hall Hok Hc Hfits Hn Hcase Hw Hfuel parts.
  pose proof Hfits as (Hm & _).
  rewrite extract_container;
    [| assumption | now apply container_header_sig].
  rewrite (collect_jxlc plat sig boxes jx rest fuel) by assumption.
  fold parts. unfold parts at 1.
  destruct (segments_of boxes ++ [(0, rb_body jx)]) as [|p l] eqn:E.
  - now destruct (segments_of boxes).
  - now rewrite Hw.
Qed.

(** The payload of a well-formed box is no longer than the file. *)
Lemma well_formed_payload (plat : platform) (a : bytes) (jx : raw_box)
    (b : bytes) :
  well_formed jx = true ->
  fits plat (a ++ box_bytes jx ++ b) ->
  declared_size jx - header_length jx = Z.of_nat (length (rb_body jx))
  /\ declared_size jx - header_length jx <= max_read plat.
Proof.
  intros Hwf (_ & Hrd & _).
  unfold well_formed in Hwf. apply andb_true_iff in Hwf as [Hok Hsz].
  apply Z.eqb_eq in Hsz. rewrite !length_app in Hrd.
  pose proof (length_box_bytes jx Hok).
  assert (8 <= header_length jx)
    by (unfold header_length; destruct (extended jx); lia).
  lia.
Qed.

Lemma well_formed_header (r : raw_box) :
  well_formed r = true -> header_ok r = true.
Proof.
  unfold well_formed. rewrite andb_true_iff. tauto.
Qed.

(** ** Uniqueness of the index order *)

Lemma index_le_trans : Relations_1.Transitive index_le.
Proof. intros a b c. unfold index_le. lia. Qed.

Lemma sorted_head_least (x : part) (l : list part) (y : part) :
  Sorted index_le (x :: l) -> In y l -> fst x <= fst y.
Proof.
  intros Hs Hin. apply Sorted_StronglySorted in Hs; [|exact index_le_trans].
  inversion Hs as [|? ? _ Hall]; subst.
  rewrite Forall_forall in Hall. exact (Hall y Hin).
Qed.

(** Two index-ordered lists of the same parts are equal when no index
    occurs twice. *)
Lemma sorted_perm_unique (l1 : list part) :
  forall l2,
  Sorted index_le l1 -> Sorted index_le l2 ->
  Permutation l1 l2 -> NoDup (map fst l1) -> l1 = l2.
Proof.
  induction l1 as [|x l1 IH]; intros l2 H1 H2 Hp Hnd.
  - apply Permutation_nil in Hp. now subst.
  - destruct l2 as [|y l2].
    { apply Permutation_sym, Permutation_nil in Hp. discriminate. }
    assert (Hxy : x = y).
    { assert (Hx : In x (y :: l2))
        by (apply (Permutation_in _ Hp); now left).
      assert (Hy : In y (x :: l1))
        by (apply (Permutation_in _ (Permutation_sym Hp)); now left).
      destruct Hx as [Hx|Hx]; [now symmetry|].
      destruct Hy as [Hy|Hy]; [assumption|].
      pose proof (sorted_head_least _ _ _ H2 Hx) as Hle1.
      pose proof (sorted_head_least _ _ _ H1 Hy) as Hle2.
      cbn [map] in Hnd. inversion Hnd as [|? ? Hnot _]; subst.
      exfalso. apply Hnot. replace (fst x) with (fst y) by lia.
      now apply in_map. }
    subst y. f_equal. apply IH.
    + now inversion H1.
    + now inversion H2.
    + now apply Permutation_cons_inv with (a := x).
    + cbn [map] in Hnd. now inversion Hnd.
Qed.

(** The sort does not depend on the order in which the parts arrive. *)
Lemma sort_by_index_order_free (l l' : list part) :
  Permutation l l' -> NoDup (map fst l) ->
  sort_by_index l' = sort_by_index l.
Proof.
  intros Hp Hnd. symmetry. apply sorted_perm_unique.
  - apply sort_by_index_sorted.
  - apply sort_by_index_sorted.
  - eapply perm_trans; [apply Permutation_sym, sort_by_index_perm|].
    eapply perm_trans; [exact Hp | apply sort_by_index_perm].
  - eapply Permutation_NoDup; [|exact Hnd].
    apply Permutation_map, sort_by_index_perm.
Qed.

(** ** The properties of the extractor *)

(** C1. A container whose boxes are [jxlp] boxes and boxes of other types
    (none of them [jxlc]), with at least one [jxlp] box: [extract_codestream]
    writes the payloads of the [jxlp] boxes joined in ascending order of
    their indices.  The index of a segment is the big-endian value of the
    first four bytes behind the box header and its payload is the rest of the
    box ([segment_of]); the bytes of the other boxes are passed over.  The
    written list is ordered by index, holds the same segments as the file,
    keeps segments of equal index in file order, and is the same for every
    file order of segments with distinct indices. *)
Theorem C1_jxlp_payloads_in_index_order
    (plat : platform) (sig : bytes) (boxes : list raw_box) (fuel : nat) :
  container_header sig = true ->
  forallb scannable boxes = true ->
  segments_of boxes <> [] ->
  fits plat (sig ++ boxes_bytes boxes) ->
  out_writable plat = true ->
  (length boxes < fuel)%nat ->
  let ordered := sort_by_index (segments_of boxes) in
  extract_codestream plat (Some (sig ++ boxes_bytes boxes)) fuel
  = Some (has_magic (join_parts ordered), Some (join_parts ordered))
  /\ Sorted index_le ordered
  /\ Permutation (segments_of boxes) ordered
  /\ (forall k, filter (has_index k) ordered
                = filter (has_index k) (segments_of boxes))
  /\ (forall others,
        Permutation (segments_of boxes) others ->
        NoDup (map fst others) ->
        sort_by_index others = ordered).
Proof.
  intros Hsig Hall Hne Hfits Hw Hfuel ordered.
  split; [|split; [|split; [|split]]].
  - pose proof Hfits as (Hm & _).
    rewrite extract_container; [|assumption|].
    + rewrite (collect_all plat sig boxes fuel Hsig Hall Hfits Hfuel).
      destruct (segments_of boxes) as [|p l] eqn:E; [congruence|].
      rewrite Hw, merge_sorted. reflexivity.
    + now apply container_header_sig.
  - apply sort_by_index_sorted.
  - apply sort_by_index_perm.
  - intros k. apply sort_by_index_stable.
  - intros others Hp Hnd. symmetry.
    apply sort_by_index_order_free; [now apply Permutation_sym | assumption].
Qed.

Lemma C1_scrambled_in_index_order :
  extract_codestream roomy (Some (sample_sig ++ boxes_bytes scrambled)) 5
  = Some (true, Some [xff; x0a; x03; x04; x05; x06]).
Proof.
  exact (proj1 (C1_jxlp_payloads_in_index_order roomy sample_sig scrambled 5
                  eq_refl eq_refl ltac:(discriminate)
                  ltac:(repeat split; vm_compute; discriminate)
                  eq_refl ltac:(cbn; lia))).
Defined.

(** C2. When [read_box] returns a box of type [jxlc], the loop reads
    [size - header_size] bytes, appends them as the segment of index 0 and
    ends: the result does not depend on the fuel that is left, no further
    header is read.  In a container in which a well-formed [jxlc] box follows
    boxes of other types, the scan so ends with the cursor on the first byte
    behind the [jxlc] box, and what lies after that box is not read: the
    result is the same whatever the trailing bytes are.  The output is made
    of segment payloads only, and when the boxes before the [jxlc] box are
    all of skipped types it is the [jxlc] payload alone. *)
Theorem C2_jxlc_stops_the_scan :
  (forall plat data s s1 b parts fuel,
     read_box plat data s = Ret (Some b) s1 ->
     box_type b = jxlc ->
     collect plat data (S fuel) parts s
     = (d <- f_read plat data (size b - header_size b) ;;
        ret (parts ++ [(0, d)])) s1)
  /\ (forall plat sig boxes jx trailing fuel,
        container_header sig = true ->
        forallb scannable boxes = true ->
        well_formed jx = true ->
        is_jxlc jx = true ->
        fits plat (sig ++ boxes_bytes boxes ++ box_bytes jx ++ trailing) ->
        out_writable plat = true ->
        (length boxes < fuel)%nat ->
        let data := sig ++ boxes_bytes boxes ++ box_bytes jx ++ trailing in
        let parts := segments_of boxes ++ [(0, rb_body jx)] in
        collect plat data fuel [] (after_signature data)
        = Ret parts
              (moved start
                 (Z.of_nat
                    (length (sig ++ boxes_bytes boxes ++ box_bytes jx))))
        /\ extract_codestream plat (Some data) fuel
           = Some (has_magic (merge parts), Some (merge parts))
        /\ (forallb skipped boxes = true -> merge parts = rb_body jx)
        /\ (forall trailing',
              fits plat
                (sig ++ boxes_bytes boxes ++ box_bytes jx ++ trailing') ->
              extract_codestream plat
                (Some (sig ++ boxes_bytes boxes ++ box_bytes jx ++ trailing'))
                fuel
              = extract_codestream plat (Some data) fuel)).
Proof.
  split.
  { intros plat data s s1 b parts fuel Hrb Hty.
    cbn [collect]. unfold loop_body, bind at 1 2. rewrite Hrb.
    unfold handle_box. rewrite Hty, bytes_eqb_refl. unfold bind.
    destruct (f_read plat data (size b - header_size b) s1); reflexivity. }
  intros plat sig boxes jx trailing fuel Hsig Hall Hwf Hc Hfits Hw Hfuel
         data parts.
  pose proof (well_formed_header jx Hwf) as Hok.
  assert (Hpay : forall t,
            fits plat (sig ++ boxes_bytes boxes ++ box_bytes jx ++ t) ->
            declared_size jx - header_length jx
            = Z.of_nat (length (rb_body jx))
            /\ declared_size jx - header_length jx <= max_read plat).
  { intros t Ht. rewrite app_assoc in Ht.
    exact (well_formed_payload plat _ jx t Hwf Ht). }
  assert (Hext : forall t,
            fits plat (sig ++ boxes_bytes boxes ++ box_bytes jx ++ t) ->
            extract_codestream plat
              (Some (sig ++ boxes_bytes boxes ++ box_bytes jx ++ t)) fuel
            = Some (has_magic (merge parts), Some (merge parts))).
  { intros t Ht. destruct (Hpay t Ht) as [Hex Hn].
    apply extract_jxlc; auto. }
  split; [|split; [|split]].
  - destruct (Hpay trailing Hfits) as [Hex Hn].
    apply collect_jxlc; auto.
  - now apply Hext.
  - intros Hsk. unfold parts. rewrite (segments_of_skipped _ Hsk).
    apply merge_single.
  - intros t Ht. unfold data. now rewrite !Hext.
Qed.

Lemma C2_trailing_bytes_unread :
  collect roomy (sample_sig ++ box_bytes (jxlc_box xff x0a) ++ [x00]) 1 []
    (moved start 12)
  = Ret [(0, [xff; x0a])] (moved start 22)
  /\ extract_codestream roomy
       (Some (sample_sig ++ boxes_bytes [free_box; free_box64]
              ++ box_bytes (jxlc_box xff x0a) ++ [x00; x00; x00; x01]))
       3
     = Some (true, Some [xff; x0a]).
Proof.
  split.
  - exact (proj1 C2_jxlc_stops_the_scan roomy
             (sample_sig ++ box_bytes (jxlc_box xff x0a) ++ [x00])
             (moved start 12) (moved start 20)
             {| box_type := jxlc; size := 10; header_size := 8;
                box_start := 12 |}
             [] 0%nat eq_refl eq_refl).
  - exact (proj1 (proj2
             (proj2 C2_jxlc_stops_the_scan roomy sample_sig
                [free_box; free_box64] (jxlc_box xff x0a)
                [x00; x00; x00; x01] 3%nat
                eq_refl eq_refl eq_refl eq_refl
                ltac:(repeat split; vm_compute; discriminate)
                eq_refl ltac:(cbn; lia)))).
Defined.

(** The copy of a bare codestream to another file. *)
Lemma extract_bare (plat : platform) (data : bytes) (fuel : nat) :
  take 2 data = codestream_magic ->
  fits plat data ->
  out_writable plat = true ->
  in_place plat = false ->
  extract_codestream plat (Some data) fuel = Some (true, Some data).
Proof.
  intros Hmagic (Hm & Hrd & Hoff) Hw Hip.
  assert (Hnc : bytes_eqb (take 4 data) container_sig = false).
  { destruct data as [|a [|b l]]; try discriminate.
    cbn in Hmagic. injection Hmagic as -> ->.
    destruct (take 2 l) as [|c [|d t]]; reflexivity. }
  unfold extract_codestream, extract_body, bind at 1.
  rewrite read_signature by assumption.
  rewrite !take_take by lia. rewrite Hmagic, Hnc. cbn [negb].
  rewrite bytes_eqb_refl.
  unfold bind, f_seek, out_open, f_read_after_open, after_open, out_write, ret.
  change (0 <? 0) with false.
  destruct (Z.ltb_spec (max_offset plat) 0); [lia|].
  rewrite Hw, Hip. cbn [orb f_pos written]. rewrite drop_0.
  destruct (Z.ltb_spec (max_read plat) (Z.of_nat (length data))); [lia|].
  reflexivity.
Qed.




(** C4. A container from which the scan collects at least one segment: the
    merged bytes are written to the output, and only then are their first
    two bytes compared with [FF 0A].  The outcome of the call is the outcome
    of that comparison; when it fails the call reports failure and the
    output file keeps the merged bytes. *)
Theorem C4_written_before_verified
    (plat : platform) (data : bytes) (fuel : nat)
    (parts : list part) (s : handles) :
  12 <= max_read plat ->
  out_writable plat = true ->
  take 4 data = container_sig ->
  collect plat data fuel [] (after_signature data) = Ret parts s ->
  parts <> [] ->
  extract_codestream plat (Some data) fuel
  = Some (has_magic (merge parts), Some (merge parts))
  /\ (has_magic (merge parts) = false ->
      extract_codestream plat (Some data) fuel
      = Some (false, Some (merge parts))).
Proof.
  intros Hm Hw Hsig Hc Hne.
  assert (E : extract_codestream plat (Some data) fuel
              = Some (has_magic (merge parts), Some (merge parts))).
  { rewrite extract_container by assumption. rewrite Hc, Hw.
    destruct parts; [congruence | reflexivity]. }
  split; [exact E|]. intros Hbad. now rewrite E, Hbad.
Qed.

Lemma C4_bad_magic_stays_on_disk :
  extract_codestream roomy
    (Some (sample_sig ++ box_bytes (jxlc_box x00 x01))) 1
  = Some (false, Some [x00; x01]).
Proof.
  exact (proj2 (C4_written_before_verified roomy
                  (sample_sig ++ box_bytes (jxlc_box x00 x01)) 1
                  [(0, [x00; x01])] _
                  ltac:(vm_compute; discriminate) eq_refl eq_refl eq_refl
                  ltac:(discriminate))
               eq_refl).
Defined.

(** C7. An input that begins neither with the container signature
    [00 00 00 0C] nor with [FF 0A], and a container whose scan ends with no
    segment collected: the call reports failure and the output path is not
    opened. *)
Theorem C7_failure_without_output
    (plat : platform) (data : bytes) (fuel : nat) :
  (take 4 data <> container_sig ->
   take 2 data <> codestream_magic ->
   extract_codestream plat (Some data) fuel = Some (false, None))
  /\ (take 4 data = container_sig ->
      forall s,
      collect plat data fuel [] (after_signature data) = Ret [] s ->
      extract_codestream plat (Some data) fuel = Some (false, None)).
Proof.
  assert (Hsmall : max_read plat < 12 ->
                   extract_codestream plat (Some data) fuel
                   = Some (false, None)).
  { intros Hlt. unfold extract_codestream, extract_body, bind, f_read.
    cbn [Z.ltb Z.eqb Z.compare].
    destruct (Z.ltb_spec (max_read plat) 12); [reflexivity | lia]. }
  split.
  - intros Hnc Hnm.
    destruct (Z.lt_ge_cases (max_read plat) 12) as [Hlt|Hm]; [auto|].
    unfold extract_codestream, extract_body, bind at 1.
    rewrite read_signature by assumption.
    rewrite !take_take by lia.
    apply bytes_eqb_neq in Hnc, Hnm. rewrite Hnc, Hnm. reflexivity.
  - intros Hsig s Hc.
    destruct (Z.lt_ge_cases (max_read plat) 12) as [Hlt|Hm]; [auto|].
    rewrite extract_container by assumption. now rewrite Hc.
Qed.

Lemma C7_invalid_and_empty_samples :
  extract_codestream roomy (Some [x89; x50; x4e; x47]) 0 = Some (false, None)
  /\ extract_codestream roomy
       (Some (sample_sig ++ boxes_bytes [free_box; free_box64])) 3
     = Some (false, None).
Proof.
  split.
  - exact (proj1 (C7_failure_without_output roomy [x89; x50; x4e; x47] 0)
             ltac:(discriminate) ltac:(discriminate)).
  - exact (proj2 (C7_failure_without_output roomy
                    (sample_sig ++ boxes_bytes [free_box; free_box64]) 3)
             eq_refl {| f_pos := 40; written := None |} eq_refl).
Defined.

(** With the header in place, one pass of the loop is [handle_box] on the
    box that [read_box] returns. *)
Lemma loop_body_header (plat : platform) (data : bytes) (s : handles)
    (r : raw_box) (rest : bytes) (parts : list part) :
  0 <= f_pos s ->
  8 <= max_read plat ->
  header_ok r = true ->
  remaining data s = box_bytes r ++ rest ->
  loop_body plat data parts s
  = handle_box plat data
      {| box_type := rb_type r; size := declared_size r;
         header_size := header_length r; box_start := f_pos s |}
      parts (moved s (header_length r)).
Proof.
  intros Hp Hm Hok Hr. unfold loop_body, bind at 1.
  now rewrite (read_box_header plat data s r rest Hp Hm Hok Hr).
Qed.

(** C6. A box whose 32-bit size field is 1: [read_box] reads the eight
    bytes behind the type tag as the big-endian size [V], returns the header
    length 16 and leaves the cursor 16 bytes on.  The loop then works with
    [V]: a [jxlc] payload is read with the count [V - 16], a [jxlp] payload
    with [V - 16 - 4], and any other box is skipped by a seek to the start of
    the box plus [V].  For any other value of the size field the header
    length is 8, the size is that value, and the cursor stands 8 bytes on:
    no further size field is read. *)
Theorem C6_extended_size_field
    (plat : platform) (data : bytes) (s : handles) (r : raw_box)
    (rest : bytes) (parts : list part) :
  0 <= f_pos s ->
  8 <= max_read plat ->
  header_ok r = true ->
  remaining data s = box_bytes r ++ rest ->
  let V := be_value (rb_ext r) in
  (be_value (rb_size r) = 1 ->
   read_box plat data s
   = Ret (Some {| box_type := rb_type r; size := V; header_size := 16;
                  box_start := f_pos s |})
         (moved s 16)
   /\ (is_jxlc r = true ->
       loop_body plat data parts s
       = (d <- f_read plat data (V - 16) ;;
          ret (Break (parts ++ [(0, d)]))) (moved s 16))
   /\ (is_jxlc r = false -> is_jxlp r = true ->
       loop_body plat data parts s
       = (index_data <- f_read plat data 4 ;;
          index <- unpack 4 index_data ;;
          d <- f_read plat data (V - 16 - 4) ;;
          ret (Continue (parts ++ [(index, d)]))) (moved s 16))
   /\ (is_jxlc r = false -> is_jxlp r = false ->
       loop_body plat data parts s
       = if f_pos s + V <=? max_offset plat
         then Ret (Continue parts) (moved s V)
         else Raise OSError (moved s 16)))
  /\ (be_value (rb_size r) <> 1 ->
      read_box plat data s
      = Ret (Some {| box_type := rb_type r; size := be_value (rb_size r);
                     header_size := 8; box_start := f_pos s |})
            (moved s 8)).
Proof.
  intros Hp Hm Hok Hr V.
  pose proof (read_box_header plat data s r rest Hp Hm Hok Hr) as Hrb.
  pose proof (loop_body_header plat data s r rest parts Hp Hm Hok Hr) as Hlb.
  unfold declared_size, header_length, extended in Hrb, Hlb.
  split.
  - intros H1. apply Z.eqb_eq in H1. rewrite H1 in Hrb, Hlb.
    fold V in Hrb, Hlb.
    split; [exact Hrb|]. unfold handle_box in Hlb.
    cbn [box_type size header_size box_start] in Hlb.
    fold (is_jxlc r) (is_jxlp r) in Hlb.
    split; [|split].
    + intros Hc. now rewrite Hc in Hlb.
    + intros Hc Hj. now rewrite Hc, Hj in Hlb.
    + intros Hc Hj. rewrite Hc, Hj in Hlb. rewrite Hlb.
      unfold bind, f_seek, ret. cbn [f_pos moved written].
      pose proof (be_value_bounds (rb_ext r)) as [Hv _]. fold V in Hv.
      destruct (Z.ltb_spec (f_pos s + V) 0); [lia|].
      cbn [orb].
      destruct (Z.ltb_spec (max_offset plat) (f_pos s + V)),
               (Z.leb_spec (f_pos s + V) (max_offset plat));
        try lia; reflexivity.
  - intros H1. apply Z.eqb_neq in H1. now rewrite H1 in Hrb.
Qed.

Lemma C6_free_box64_skipped_by_18 :
  loop_body roomy (sample_sig ++ box_bytes free_box64 ++ [x00]) []
    (moved start 12)
  = Ret (Continue []) (moved start 30)
  /\ read_box roomy (sample_sig ++ box_bytes free_box) (moved start 12)
     = Ret (Some {| box_type := free; size := 10; header_size := 8;
                    box_start := 12 |})
           (moved start 20).
Proof.
  split.
  - exact (proj2 (proj2 (proj2
             (proj1 (C6_extended_size_field roomy
                       (sample_sig ++ box_bytes free_box64 ++ [x00])
                       (moved start 12) free_box64 [x00] []
                       ltac:(vm_compute; discriminate)
                       ltac:(vm_compute; discriminate) eq_refl eq_refl)
                    eq_refl)))
             eq_refl eq_refl).
  - exact (proj2 (C6_extended_size_field roomy
                    (sample_sig ++ box_bytes free_box)
                    (moved start 12) free_box [] []
                    ltac:(vm_compute; discriminate)
                    ltac:(vm_compute; discriminate) eq_refl eq_refl)
             ltac:(vm_compute; discriminate)).
Defined.

(** A [jxlc] box whose declared size lies two or more below its header
    length: the read count is below -1 and [f.read] raises. *)
Lemma loop_body_jxlc_negative (plat : platform) (data : bytes) (s : handles)
    (r : raw_box) (rest : bytes) (parts : list part) :
  0 <= f_pos s ->
  8 <= max_read plat ->
  header_ok r = true ->
  is_jxlc r = true ->
  remaining data s = box_bytes r ++ rest ->
  declared_size r - header_length r < -1 ->
  loop_body plat data parts s = Raise ValueError (moved s (header_length r)).
Proof.
  intros Hp Hm Hok Hc Hr Hneg.
  rewrite (loop_body_header plat data s r rest parts Hp Hm Hok Hr).
  unfold handle_box. cbn [box_type size header_size box_start].
  fold (is_jxlc r). rewrite Hc. unfold bind, f_read.
  destruct (Z.ltb_spec (declared_size r - header_length r) (-1)); [|lia].
  reflexivity.
Qed.

(** The call with [verbose=False]: an input path that cannot be opened, any
    exception of the body, the [ValueError] of a read whose count was
    computed negative from a [jxlc] box with a declared size below its header
    length, and an output path that cannot be opened all end in [False]. *)
Lemma default_call_exceptions :
  (forall plat fuel, extract_codestream plat None fuel = Some (false, None))
  /\ (forall plat data fuel e s,
        extract_body plat data fuel start = Raise e s ->
        extract_codestream plat (Some data) fuel = Some (false, written s))
  /\ (forall plat sig boxes jx rest fuel,
        container_header sig = true ->
        forallb scannable boxes = true ->
        header_ok jx = true ->
        is_jxlc jx = true ->
        declared_size jx - header_length jx < -1 ->
        fits plat (sig ++ boxes_bytes boxes ++ box_bytes jx ++ rest) ->
        (length boxes < fuel)%nat ->
        let data := sig ++ boxes_bytes boxes ++ box_bytes jx ++ rest in
        (exists s, extract_body plat data fuel start = Raise ValueError s)
        /\ extract_codestream plat (Some data) fuel = Some (false, None))
  /\ (forall plat data fuel parts s,
        12 <= max_read plat ->
        take 4 data = container_sig ->
        collect plat data fuel [] (after_signature data) = Ret parts s ->
        out_writable plat = false ->
        extract_codestream plat (Some data) fuel = Some (false, None)).
Proof.
  split; [|split; [|split]].
  - reflexivity.
  - intros plat data fuel e s H. unfold extract_codestream. now rewrite H.
  - intros plat sig boxes jx rest fuel Hsig Hall Hok Hc Hneg Hfits Hfuel data.
    pose proof Hfits as (Hm & _).
    assert (Hcol : collect plat data fuel [] (after_signature data)
                   = Raise ValueError
                       (moved
                          (moved start
                             (Z.of_nat (length (sig ++ boxes_bytes boxes))))
                          (header_length jx))).
    { replace fuel with (length boxes + S (fuel - S (length boxes)))%nat
        by lia.
      destruct (scan_prefix plat sig boxes (box_bytes jx ++ rest)
                  (S (fuel - S (length boxes))) Hsig Hall Hfits) as [Hs Hr].
      fold data in Hs, Hr. rewrite Hs. cbn [collect]. unfold bind.
      rewrite (loop_body_jxlc_negative plat data _ jx rest);
        try assumption; try (cbn [f_pos moved start]; lia).
      reflexivity. }
    assert (Hbody : extract_body plat data fuel start
                    = Raise ValueError
                        (moved
                           (moved start
                              (Z.of_nat (length (sig ++ boxes_bytes boxes))))
                           (header_length jx))).
    { unfold extract_body, bind at 1.
      rewrite read_signature by assumption.
      rewrite take_take by lia. unfold data at 1.
      rewrite (container_header_sig _ _ Hsig), bytes_eqb_refl. cbn [negb].
      unfold bind at 1. now rewrite Hcol. }
    split; [eexists; exact Hbody|].
    unfold extract_codestream. fold data. now rewrite Hbody.
  - intros plat data fuel parts s Hm Hsig Hc Hw.
    rewrite extract_container by assumption. rewrite Hc, Hw.
    now destruct parts.
Qed.


(** A box of some other type whose declared size is 0: the seek goes back to
    the start of the box, and the loop reads the same header again. *)
Lemma zero_size_box_stalls (plat : platform) (data : bytes) (s : handles)
    (r : raw_box) (rest : bytes) (parts : list part) :
  0 <= f_pos s <= max_offset plat ->
  8 <= max_read plat ->
  header_ok r = true ->
  is_jxlc r = false ->
  is_jxlp r = false ->
  declared_size r = 0 ->
  remaining data s = box_bytes r ++ rest ->
  loop_body plat data parts s = Ret (Continue parts) s
  /\ forall fuel, collect plat data fuel parts s = OutOfFuel.
Proof.
  intros [Hp Hoff] Hm Hok Hc Hj Hz Hr.
  assert (Hstep : loop_body plat data parts s = Ret (Continue parts) s).
  { rewrite (loop_body_header plat data s r rest parts Hp Hm Hok Hr).
    unfold handle_box. cbn [box_type size header_size box_start].
    fold (is_jxlc r) (is_jxlp r). rewrite Hc, Hj, Hz, Z.add_0_r.
    unfold bind, f_seek, ret. cbn [f_pos moved written].
    destruct (Z.ltb_spec (f_pos s) 0); [lia|].
    destruct (Z.ltb_spec (max_offset plat) (f_pos s)); [lia|].
    cbn [orb]. now destruct s. }
  split; [exact Hstep|].
  induction fuel as [|fuel IH]; [reflexivity|].
  cbn [collect]. unfold bind. now rewrite Hstep.
Qed.

(** C5, where the code falls short of it.  A container whose first box is of type
    [free] and has the size field 0: the box starts at offset 12, and after
    the loop has dealt with it the next header is read from offset 12 again,
    not from a greater one; the loop never ends. *)
Theorem C5_zero_size_box_never_left :
  loop_body roomy (sample_sig ++ box_bytes zero_box) [] (moved start 12)
  = Ret (Continue []) (moved start 12)
  /\ forall fuel,
       extract_codestream roomy (Some (sample_sig ++ box_bytes zero_box)) fuel
       = None.
Proof.
  destruct (zero_size_box_stalls roomy (sample_sig ++ box_bytes zero_box)
              (moved start 12) zero_box [] []) as [Hstep Hloop];
    try reflexivity; try (vm_compute; intuition discriminate).
  split; [exact Hstep|]. intros fuel.
  rewrite extract_container;
    [| vm_compute; discriminate | reflexivity].
  change (after_signature (sample_sig ++ box_bytes zero_box))
    with (moved start 12).
  now rewrite Hloop.
Qed.

Lemma jxlp_not_jxlc (r : raw_box) : is_jxlp r = true -> is_jxlc r = false.
Proof.
  unfold is_jxlp, is_jxlc. intros H. apply bytes_eqb_eq in H.
  now rewrite H.
Qed.

(** C8 does not hold in its first form: the output holds the payload whatever its first
    bytes are.  A container with one [free] box and one [jxlc] box whose
    payload is [00 01]. *)
Lemma C8_output_without_magic :
  forallb skipped [free_box] = true
  /\ well_formed (jxlc_box x00 x01) = true
  /\ is_jxlc (jxlc_box x00 x01) = true
  /\ extract_codestream roomy
       (Some (sample_sig ++ boxes_bytes [free_box]
              ++ box_bytes (jxlc_box x00 x01) ++ []))
       2
     = Some (false, Some [x00; x01])
  /\ take 2 [x00; x01] <> codestream_magic.
Proof.
  repeat split; try reflexivity. discriminate.
Qed.

(** C8, in the form that holds.  A container with one [jxlc] box and otherwise boxes of
    skipped types before it (and anything behind it): the output is the
    payload of the [jxlc] box, so its length is the declared size less the
    header length; it begins with [FF 0A] exactly when the payload does, and
    that is when the call reports success. *)
Theorem C8_single_jxlc_payload
    (plat : platform) (sig : bytes) (before : list raw_box) (jx : raw_box)
    (trailing : bytes) (fuel : nat) :
  container_header sig = true ->
  forallb skipped before = true ->
  well_formed jx = true ->
  is_jxlc jx = true ->
  fits plat (sig ++ boxes_bytes before ++ box_bytes jx ++ trailing) ->
  out_writable plat = true ->
  (length before < fuel)%nat ->
  exists ok out,
    extract_codestream plat
      (Some (sig ++ boxes_bytes before ++ box_bytes jx ++ trailing)) fuel
    = Some (ok, Some out)
    /\ out = rb_body jx
    /\ Z.of_nat (length out) = declared_size jx - header_length jx
    /\ (ok = true <-> take 2 out = codestream_magic).
Proof.
  intros Hsig Hsk Hwf Hc Hfits Hw Hfuel.
  pose proof Hfits as Hfits'. rewrite app_assoc in Hfits'.
  destruct (well_formed_payload plat _ jx trailing Hwf Hfits') as [Hex Hn].
  exists (has_magic (rb_body jx)), (rb_body jx).
  split; [|split; [reflexivity | split]].
  - rewrite (extract_jxlc plat sig before jx trailing fuel);
      auto using skipped_scannable, well_formed_header.
    rewrite (segments_of_skipped _ Hsk). cbn [app].
    now rewrite merge_single.
  - lia.
  - unfold has_magic. apply bytes_eqb_eq.
Qed.

Lemma C8_single_jxlc_sample :
  exists ok out,
    extract_codestream roomy
      (Some (sample_sig ++ boxes_bytes [free_box; free_box64]
             ++ box_bytes (jxlc_box xff x0a) ++ box_bytes free_box)) 3
    = Some (ok, Some out)
    /\ out = [xff; x0a]
    /\ Z.of_nat (length out) = 2
    /\ (ok = true <-> take 2 out = codestream_magic).
Proof.
  exact (C8_single_jxlc_payload roomy sample_sig [free_box; free_box64]
           (jxlc_box xff x0a) (box_bytes free_box) 3
           eq_refl eq_refl eq_refl eq_refl
           ltac:(repeat split; vm_compute; discriminate)
           eq_refl ltac:(cbn; lia)).
Defined.

(** A container that ends inside a [jxlp] box, behind its index. *)
Lemma extract_jxlp_short (plat : platform) (sig : bytes)
    (boxes : list raw_box) (r : raw_box) (fuel : nat) :
  container_header sig = true ->
  forallb scannable boxes = true ->
  header_ok r = true ->
  is_jxlp r = true ->
  (4 <= length (rb_body r))%nat ->
  fits plat (sig ++ boxes_bytes boxes ++ box_bytes r) ->
  declared_size r - header_length r - 4 <= max_read plat ->
  Z.of_nat (length (rb_body r)) - 4 <= declared_size r - header_length r - 4 ->
  out_writable plat = true ->
  (S (length boxes) < fuel)%nat ->
  let parts := segments_of boxes ++ segment_of r in
  extract_codestream plat (Some (sig ++ boxes_bytes boxes ++ box_bytes r)) fuel
  = Some (has_magic (merge parts), Some (merge parts)).
Proof.
  intros Hsig Hall Hok Hj Hidx Hfits Hn Hshort Hw Hfuel parts.
  pose proof Hfits as (Hm & _).
  rewrite extract_container;
    [| assumption | now apply container_header_sig].
  replace fuel with (length boxes + S (S (fuel - S (S (length boxes)))))%nat
    by lia.
  destruct (scan_prefix plat sig boxes (box_bytes r)
              (S (S (fuel - S (S (length boxes))))) Hsig Hall Hfits)
    as [Hs Hr].
  rewrite Hs. cbn [collect]. unfold bind at 1.
  rewrite (loop_body_jxlp_short plat _ _ r);
    try assumption; try (cbn [f_pos moved start]; lia);
    [| now apply jxlp_not_jxlc].
  unfold bind.
  rewrite loop_body_eof; [| | lia].
  - fold parts. unfold ret. unfold parts at 1, segment_of. rewrite Hj.
    destruct (segments_of boxes); cbn [app]; now rewrite Hw.
  - apply (remaining_step _ _ _ (box_bytes r) []);
      [cbn [f_pos moved start]; lia | now rewrite app_nil_r | reflexivity].
Qed.

(** C10 does not hold in its first form: a [jxlc] box that declares [2^64 - 1] bytes in a
    file that holds two, [FF 0A], behind the header.  The read count is
    beyond what [f.read] accepts on any platform; the call reports failure
    and writes nothing. *)
Lemma C10_huge_declared_size :
  header_ok huge_jxlc = true
  /\ is_jxlc huge_jxlc = true
  /\ Z.of_nat (length (rb_body huge_jxlc))
     < declared_size huge_jxlc - header_length huge_jxlc
  /\ has_magic (rb_body huge_jxlc) = true
  /\ extract_codestream roomy (Some (sample_sig ++ box_bytes huge_jxlc)) 1
     = Some (false, None).
Proof.
  repeat split; vm_compute; reflexivity.
Qed.

(** C10, in the form that holds.  A container that ends inside its last box, a [jxlc] box
    or a [jxlp] box behind its index, the declared payload length being one
    that the platform's read accepts: the read returns the bytes that are
    left, they are taken as the payload of the segment, the merged bytes are
    written, and the call reports success exactly when they begin with
    [FF 0A].  When no [jxlp] box precedes, the output is the bytes that were
    left. *)
Theorem C10_short_payload_not_detected
    (plat : platform) (sig : bytes) (boxes : list raw_box) (r : raw_box)
    (fuel : nat) :
  container_header sig = true ->
  forallb scannable boxes = true ->
  header_ok r = true ->
  fits plat (sig ++ boxes_bytes boxes ++ box_bytes r) ->
  out_writable plat = true ->
  (S (length boxes) < fuel)%nat ->
  let data := sig ++ boxes_bytes boxes ++ box_bytes r in
  (is_jxlc r = true ->
   Z.of_nat (length (rb_body r)) < declared_size r - header_length r ->
   declared_size r - header_length r <= max_read plat ->
   let parts := segments_of boxes ++ [(0, rb_body r)] in
   extract_codestream plat (Some data) fuel
   = Some (has_magic (merge parts), Some (merge parts))
   /\ (forallb skipped boxes = true -> merge parts = rb_body r))
  /\ (is_jxlp r = true ->
      (4 <= length (rb_body r))%nat ->
      Z.of_nat (length (rb_body r)) - 4
      < declared_size r - header_length r - 4 ->
      declared_size r - header_length r - 4 <= max_read plat ->
      let parts := segments_of boxes ++ segment_of r in
      extract_codestream plat (Some data) fuel
      = Some (has_magic (merge parts), Some (merge parts))
      /\ (forallb skipped boxes = true -> merge parts = drop 4 (rb_body r))).
Proof.
  intros Hsig Hall Hok Hfits Hw Hfuel data. split.
  - intros Hc Hshort Hn parts. split.
    + unfold data. rewrite <- (app_nil_r (box_bytes r)) in Hfits |- *.
      apply extract_jxlc; auto; try lia.
      right. split; [reflexivity | lia].
    + intros Hsk. unfold parts. rewrite (segments_of_skipped _ Hsk).
      apply merge_single.
  - intros Hj Hidx Hshort Hn parts. split.
    + unfold data. apply extract_jxlp_short; auto; lia.
    + intros Hsk. unfold parts, segment_of.
      rewrite (segments_of_skipped _ Hsk), Hj. apply merge_single.
Qed.

Lemma C10_short_samples :
  extract_codestream roomy
    (Some (sample_sig ++ boxes_bytes [free_box] ++ box_bytes short_jxlc)) 3
  = Some (true, Some [xff; x0a; x01])
  /\ extract_codestream roomy
       (Some (sample_sig ++ boxes_bytes [free_box] ++ box_bytes short_jxlp)) 3
     = Some (true, Some [xff; x0a; x01]).
Proof.
  split.
  - exact (proj1 (proj1 (C10_short_payload_not_detected roomy sample_sig
                           [free_box] short_jxlc 3
                           eq_refl eq_refl eq_refl
                           ltac:(repeat split; vm_compute; discriminate)
                           eq_refl ltac:(cbn; lia))
                    eq_refl ltac:(vm_compute; reflexivity)
                    ltac:(vm_compute; discriminate))).
  - exact (proj1 (proj2 (C10_short_payload_not_detected roomy sample_sig
                           [free_box] short_jxlp 3
                           eq_refl eq_refl eq_refl
                           ltac:(repeat split; vm_compute; discriminate)
                           eq_refl ltac:(cbn; lia))
                    eq_refl ltac:(cbn; lia) ltac:(vm_compute; reflexivity)
                    ltac:(vm_compute; discriminate))).
Defined.

(** ** Further properties: what a call can end in *)

(** Every way in which a call on a readable input returns: without touching
    the output, after the copy of a bare codestream (what [f] still
    delivered once the output was open; or the output opened and left empty,
    when that could not be read), or after the merge of a container's
    segments. *)
Lemma extract_outcomes (plat : platform) (data : bytes) (fuel : nat)
    (b : bool) (w : option bytes) :
  extract_codestream plat (Some data) fuel = Some (b, w) ->
  (b = false /\ w = None)
  \/ (take 4 data <> container_sig /\ take 2 data = codestream_magic
      /\ out_writable plat = true
      /\ ((b = true /\ w = Some (after_open plat data))
          \/ (b = false /\ w = Some [])))
  \/ (take 4 data = container_sig /\ out_writable plat = true
      /\ exists parts s,
           parts <> []
           /\ collect plat data fuel [] (after_signature data) = Ret parts s
           /\ w = Some (merge parts) /\ b = has_magic (merge parts)).
Proof.
  intros H.
  destruct (Z.lt_ge_cases (max_read plat) 12) as [Hlt|Hm].
  { left. revert H. unfold extract_codestream, extract_body, bind, f_read.
    change (12 <? -1) with false. change (12 =? -1) with false. cbv iota.
    destruct (Z.ltb_spec (max_read plat) 12); [|lia].
    cbn. intros [= <- <-]. auto. }
  destruct (bytes_eqb (take 4 data) container_sig) eqn:Ec.
  - apply bytes_eqb_eq in Ec. rewrite extract_container in H by assumption.
    destruct (collect plat data fuel [] (after_signature data))
      as [parts s|e s|] eqn:Hc; [| injection H as <- <-; auto | discriminate].
    destruct parts as [|p parts]; [injection H as <- <-; auto|].
    destruct (out_writable plat) eqn:Hw; [|injection H as <- <-; auto].
    injection H as <- <-. right. right.
    repeat split; auto. exists (p :: parts), s. repeat split; auto.
    discriminate.
  - revert H. unfold extract_codestream, extract_body, bind at 1.
    rewrite read_signature by assumption.
    rewrite !take_take by lia. rewrite Ec. cbn [negb].
    destruct (bytes_eqb (take 2 data) codestream_magic) eqn:Em;
      [|cbn; intros [= <- <-]; auto].
    unfold bind, f_seek, out_open, f_read_after_open, out_write, ret.
    change (0 <? 0) with false. cbn [orb].
    destruct (max_offset plat <? 0); [cbn; intros [= <- <-]; auto|].
    destruct (out_writable plat) eqn:Hw; [|cbn; intros [= <- <-]; auto].
    cbn [f_pos written]. rewrite drop_0.
    apply bytes_eqb_neq in Ec. apply bytes_eqb_eq in Em.
    destruct (max_read plat <? Z.of_nat (length (after_open plat data)));
      cbn; intros [= <- <-]; right; left; repeat split; auto.
Qed.

Lemma after_open_apart (plat : platform) (data : bytes) :
  in_place plat = false -> after_open plat data = data.
Proof. intros H. unfold after_open. now rewrite H. Qed.



(** When [is_jxl_container] answers [True]. *)
Lemma is_jxl_container_spec (plat : platform) (input : option bytes) :
  is_jxl_container plat input = true
  <-> exists data, input = Some data /\ 12 <= max_read plat
                   /\ take 4 data = container_sig.
Proof.
  split.
  - destruct input as [data|]; [|discriminate]. intros H.
    exists data. split; [reflexivity|].
    destruct (Z.lt_ge_cases (max_read plat) 12) as [Hlt|Hm].
    { revert H. unfold is_jxl_container, is_jxl_container_body, bind, f_read.
      change (12 <? -1) with false. change (12 =? -1) with false. cbv iota.
      destruct (Z.ltb_spec (max_read plat) 12); [discriminate | lia]. }
    split; [assumption|].
    revert H. unfold is_jxl_container, is_jxl_container_body, bind.
    rewrite read_signature by assumption. rewrite !take_take by lia.
    destruct (bytes_eqb (take 4 data) container_sig) eqn:Ec.
    + intros _. now apply bytes_eqb_eq.
    + destruct (bytes_eqb (take 2 data) codestream_magic); discriminate.
  - intros (data & -> & Hm & Hsig).
    unfold is_jxl_container, is_jxl_container_body, bind.
    rewrite read_signature by assumption. rewrite take_take by lia.
    now rewrite Hsig, bytes_eqb_refl.
Qed.

(** X2. [is_jxl_container] answers [True] exactly for a file that can be
    opened, whose signature can be read, and whose first four bytes are
    [00 00 00 0C]; a bare codestream, a file of fewer than four bytes and a
    path that cannot be opened all give [False]. *)
Theorem X2_is_jxl_container_true_iff
    (plat : platform) (input : option bytes) :
  (is_jxl_container plat input = true
   <-> exists data, input = Some data /\ 12 <= max_read plat
                    /\ take 4 data = container_sig)
  /\ (forall data,
        take 2 data = codestream_magic ->
        is_jxl_container plat (Some data) = false)
  /\ (forall data,
        (length data < 4)%nat -> is_jxl_container plat (Some data) = false)
  /\ is_jxl_container plat None = false.
Proof.
  split; [apply is_jxl_container_spec|]. split; [|split; [|reflexivity]].
  - intros data Hmagic.
    destruct (is_jxl_container plat (Some data)) eqn:E; [|reflexivity].
    apply is_jxl_container_spec in E as (d & [= <-] & _ & Hsig).
    destruct data as [|a [|b l]]; try discriminate.
    cbn in Hmagic, Hsig. unfold codestream_magic in Hmagic.
    unfold container_sig in Hsig. congruence.
  - intros data Hlen.
    destruct (is_jxl_container plat (Some data)) eqn:E; [|reflexivity].
    apply is_jxl_container_spec in E as (d & [= <-] & _ & Hsig).
    apply (f_equal (@length byte)) in Hsig.
    assert (H4 := length_take 4 data ltac:(lia)). cbn in Hsig. lia.
Qed.

(** X3. A file that [is_jxl_container] does not take for a container is
    not rewritten on its way to another file: when [extract_codestream]
    succeeds on it and the output path names another file than the input,
    the output is the input, byte for byte. *)
Theorem X3_not_a_container_is_copied
    (plat : platform) (data : bytes) (fuel : nat) (w : option bytes) :
  in_place plat = false ->
  is_jxl_container plat (Some data) = false ->
  extract_codestream plat (Some data) fuel = Some (true, w) ->
  w = Some data.
Proof.
  intros Hip Hno H.
  destruct (extract_outcomes plat data fuel true w H)
    as [[Hb _] | [(Hc & Hm & Hw & [[_ ->] | [Hb _]])
                 | (Hc & Hw & parts & s & Hne & Hcol & _ & _)]];
    try discriminate; [now rewrite after_open_apart|].
  exfalso.
  assert (Hm : 12 <= max_read plat).
  { destruct (Z.lt_ge_cases (max_read plat) 12) as [Hlt|Hm]; [|assumption].
    exfalso. revert H. unfold extract_codestream, extract_body, bind, f_read.
    change (12 <? -1) with false. change (12 =? -1) with false. cbv iota.
    destruct (Z.ltb_spec (max_read plat) 12); [discriminate | lia]. }
  assert (Hyes : is_jxl_container plat (Some data) = true)
    by (apply is_jxl_container_spec; eauto).
  congruence.
Qed.

Lemma X2_detector_samples :
  is_jxl_container roomy (Some [xff; x0a; x01]) = false
  /\ is_jxl_container roomy (Some [x00; x00; x00]) = false.
Proof.
  split.
  - exact (proj1 (proj2 (X2_is_jxl_container_true_iff roomy None))
             [xff; x0a; x01] eq_refl).
  - exact (proj1 (proj2 (proj2 (X2_is_jxl_container_true_iff roomy None)))
             [x00; x00; x00] ltac:(cbn; lia)).
Defined.

Lemma X3_bare_sample_copied :
  Some [xff; x0a; x01; x02] = Some [xff; x0a; x01; x02].
Proof.
  exact (X3_not_a_container_is_copied roomy [xff; x0a; x01; x02] 0
           (Some [xff; x0a; x01; x02]) eq_refl eq_refl eq_refl).
Defined.

(** X4. With the output path naming another file than the input, running
    the extractor on its own successful output changes nothing: the output
    of a successful call is a bare codestream, and a second call on it
    copies it. *)
Theorem X4_output_is_a_fixed_point
    (plat : platform) (input : option bytes) (fuel fuel' : nat)
    (out : bytes) :
  in_place plat = false ->
  extract_codestream plat input fuel = Some (true, Some out) ->
  fits plat out ->
  extract_codestream plat (Some out) fuel' = Some (true, Some out).
Proof.
  intros Hip H Hfits.
  destruct input as [data|]; [|discriminate].
  assert (Hmagic : has_magic out = true).
  { destruct (extract_outcomes plat data fuel true (Some out) H)
      as [[Hb _] | [(Hc & Hm & Hw & [[_ Hout] | [Hb _]])
                   | (Hc & Hw & parts & s & Hne & Hcol & [= ->] & Hb)]];
      try discriminate; [|now symmetry].
    rewrite (after_open_apart _ _ Hip) in Hout. injection Hout as ->.
    unfold has_magic. now apply bytes_eqb_eq. }
  assert (Hw : out_writable plat = true).
  { destruct (extract_outcomes plat data fuel true (Some out) H)
      as [[Hb _] | [(_ & _ & Hw & _) | (_ & Hw & _)]];
      [discriminate | assumption | assumption]. }
  apply extract_bare; try assumption.
  unfold has_magic in Hmagic. now apply bytes_eqb_eq.
Qed.

Lemma X4_scrambled_output_again :
  extract_codestream roomy (Some [xff; x0a; x03; x04; x05; x06]) 0
  = Some (true, Some [xff; x0a; x03; x04; x05; x06]).
Proof.
  exact (X4_output_is_a_fixed_point roomy
           (Some (sample_sig ++ boxes_bytes scrambled)) 5 0
           [xff; x0a; x03; x04; x05; x06] eq_refl eq_refl
           ltac:(repeat split; vm_compute; discriminate)).
Defined.

(** ** Further properties: the merge *)

Lemma length_join_parts (l : list part) :
  length (join_parts l) = payload_length l.
Proof.
  unfold join_parts, payload_length.
  induction l as [|p l IH]; [reflexivity|].
  simpl. now rewrite length_app, IH.
Qed.

Lemma payload_length_perm (l l' : list part) :
  Permutation l l' -> payload_length l = payload_length l'.
Proof.
  unfold payload_length. induction 1; simpl; lia.
Qed.

Lemma insert_part_least (p : part) (l : list part) :
  HdRel index_le p l -> insert_part p l = p :: l.
Proof.
  intros H. destruct l as [|q l]; [reflexivity|].
  inversion H as [|? ? Hle]; subst. cbn [insert_part].
  unfold index_le in Hle. destruct (Z.leb_spec (fst p) (fst q)); [reflexivity|lia].
Qed.

Lemma sort_by_index_sorted_id (l : list part) :
  Sorted index_le l -> sort_by_index l = l.
Proof.
  induction 1 as [|p l Hs IH Hhd]; [reflexivity|].
  cbn [sort_by_index]. rewrite IH. now apply insert_part_least.
Qed.

(** X5. The merge neither loses nor repeats a byte: the merged codestream
    is the join of the payloads of the collected parts, each part taken once,
    in ascending order of index; so its length is that of the payloads
    together. *)
Theorem X5_merge_keeps_every_byte (parts : list part) :
  exists ordered,
    Permutation parts ordered
    /\ Sorted index_le ordered
    /\ merge parts = join_parts ordered
    /\ length (merge parts) = payload_length parts.
Proof.
  exists (sort_by_index parts). split; [apply sort_by_index_perm|].
  split; [apply sort_by_index_sorted|]. split; [apply merge_sorted|].
  rewrite merge_sorted, length_join_parts.
  symmetry. apply payload_length_perm, sort_by_index_perm.
Qed.

(** X6. Parts that were collected in ascending order of index (equal
    indices allowed) are joined in the order in which they were collected. *)
Theorem X6_merge_of_ordered_parts (parts : list part) :
  Sorted index_le parts -> merge parts = join_parts parts.
Proof.
  intros Hs. now rewrite merge_sorted, sort_by_index_sorted_id.
Qed.

Lemma X6_ordered_sample :
  merge [(0, [xff; x0a]); (0, [x01]); (7, [x02])] = [xff; x0a; x01; x02].
Proof.
  exact (X6_merge_of_ordered_parts [(0, [xff; x0a]); (0, [x01]); (7, [x02])]
           ltac:(repeat constructor; unfold index_le; cbn; lia)).
Defined.


(** ** Further properties: files that end too early *)

(** An exception during the scan of a container ends the call before the
    output is opened. *)
Lemma scan_failure_no_output (plat : platform) (data : bytes) (fuel : nat)
    (e : exn) (s : handles) :
  take 4 data = container_sig ->
  collect plat data fuel [] (after_signature data) = Raise e s ->
  extract_codestream plat (Some data) fuel = Some (false, None).
Proof.
  intros Hsig Hc.
  destruct (Z.lt_ge_cases (max_read plat) 12) as [Hlt|Hm].
  - unfold extract_codestream, extract_body, bind, f_read.
    change (12 <? -1) with false. change (12 =? -1) with false. cbv iota.
    destruct (Z.ltb_spec (max_read plat) 12); [reflexivity | lia].
  - rewrite extract_container by assumption. now rewrite Hc.
Qed.

(** X7. A container whose scan raises, for whatever reason and however
    many segments it had collected by then, gives [False] and leaves the
    output path unopened: no partial codestream is ever written. *)
Theorem X7_scan_exception_writes_nothing
    (plat : platform) (data : bytes) (fuel : nat) (e : exn) (s : handles) :
  take 4 data = container_sig ->
  collect plat data fuel [] (after_signature data) = Raise e s ->
  extract_codestream plat (Some data) fuel = Some (false, None).
Proof. apply scan_failure_no_output. Qed.

Lemma X7_segment_lost_sample :
  extract_codestream roomy
    (Some (sample_sig ++ box_bytes (jxlp_box x00 xff x0a)
           ++ [x00; x00; x00; x01])) 2
  = Some (false, None).
Proof.
  exact (X7_scan_exception_writes_nothing roomy
           (sample_sig ++ box_bytes (jxlp_box x00 xff x0a)
            ++ [x00; x00; x00; x01]) 2
           StructError (moved start 30) eq_refl eq_refl).
Defined.

(** Fewer than four bytes at the cursor: [read_box] takes them for the end
    of the stream. *)
Lemma loop_body_stray_tail (plat : platform) (data : bytes) (s : handles)
    (parts : list part) :
  (length (remaining data s) < 4)%nat ->
  4 <= max_read plat ->
  loop_body plat data parts s
  = Ret (Break parts) (moved s (Z.of_nat (length (remaining data s)))).
Proof.
  intros Hlen Hm. unfold loop_body, read_box, bind.
  rewrite f_read_short by lia.
  destruct (Nat.ltb_spec (length (remaining data s)) 4); [reflexivity | lia].
Qed.

Lemma fits_prefix (plat : platform) (a b : bytes) :
  fits plat (a ++ b) -> fits plat a.
Proof.
  intros (Hm & Hrd & Hoff). rewrite length_app in Hrd, Hoff.
  repeat split; lia.
Qed.

(** X8. Up to three stray bytes behind the last box do not matter: the
    scan ends on them as on the end of the file, and the call gives what it
    gives without them. *)
Theorem X8_stray_tail_ignored
    (plat : platform) (sig : bytes) (boxes : list raw_box) (junk : bytes)
    (fuel : nat) :
  container_header sig = true ->
  forallb scannable boxes = true ->
  (length junk < 4)%nat ->
  fits plat (sig ++ boxes_bytes boxes ++ junk) ->
  (length boxes < fuel)%nat ->
  extract_codestream plat (Some (sig ++ boxes_bytes boxes ++ junk)) fuel
  = extract_codestream plat (Some (sig ++ boxes_bytes boxes)) fuel.
Proof.
  intros Hsig Hall Hjunk Hfits Hfuel.
  pose proof Hfits as (Hm & _).
  assert (Hfits' : fits plat (sig ++ boxes_bytes boxes))
    by (rewrite app_assoc in Hfits; exact (fits_prefix _ _ _ Hfits)).
  rewrite !extract_container;
    try assumption; try now apply container_header_sig.
  rewrite (collect_all plat sig boxes fuel Hsig Hall Hfits' Hfuel).
  replace fuel with (length boxes + S (fuel - S (length boxes)))%nat at 1
    by lia.
  destruct (scan_prefix plat sig boxes junk (S (fuel - S (length boxes)))
              Hsig Hall Hfits) as [Hs Hr].
  rewrite Hs. cbn [collect]. unfold bind.
  rewrite loop_body_stray_tail by (rewrite ?Hr; lia).
  reflexivity.
Qed.

Lemma X8_stray_tail_sample :
  extract_codestream roomy
    (Some (sample_sig ++ boxes_bytes scrambled ++ [x00; x00; x01])) 5
  = extract_codestream roomy (Some (sample_sig ++ boxes_bytes scrambled)) 5.
Proof.
  exact (X8_stray_tail_ignored roomy sample_sig scrambled [x00; x00; x01] 5
           eq_refl eq_refl ltac:(cbn; lia)
           ltac:(repeat split; vm_compute; discriminate) ltac:(cbn; lia)).
Defined.

(** X9. A container that ends inside the index of a [jxlp] box, fewer than
    four bytes behind the header: unpacking the index raises, the call gives
    [False] and writes nothing, also when earlier boxes had delivered
    segments. *)
Theorem X9_cut_index_fails
    (plat : platform) (sig : bytes) (boxes : list raw_box) (r : raw_box)
    (fuel : nat) :
  container_header sig = true ->
  forallb scannable boxes = true ->
  header_ok r = true ->
  is_jxlp r = true ->
  (length (rb_body r) < 4)%nat ->
  fits plat (sig ++ boxes_bytes boxes ++ box_bytes r) ->
  (length boxes < fuel)%nat ->
  extract_codestream plat (Some (sig ++ boxes_bytes boxes ++ box_bytes r)) fuel
  = Some (false, None).
Proof.
  intros Hsig Hall Hok Hj Hlen Hfits Hfuel.
  pose proof Hfits as (Hm & _).
  replace fuel with (length boxes + S (fuel - S (length boxes)))%nat by lia.
  destruct (scan_prefix plat sig boxes (box_bytes r)
              (S (fuel - S (length boxes))) Hsig Hall Hfits) as [Hs Hr].
  set (data := sig ++ boxes_bytes boxes ++ box_bytes r) in *.
  set (s1 := moved start (Z.of_nat (length (sig ++ boxes_bytes boxes)))) in *.
  assert (Hp : 0 <= f_pos s1) by (unfold s1; cbn [f_pos moved start]; lia).
  assert (Hr0 : remaining data s1 = box_bytes r ++ [])
    by (rewrite app_nil_r; exact Hr).
  assert (Hh : 8 <= header_length r)
    by (unfold header_length; destruct (extended r); lia).
  eapply scan_failure_no_output; [now apply container_header_sig|].
  fold data. rewrite Hs. cbn [collect]. unfold bind at 1.
  rewrite (loop_body_header plat data s1 r [] _ Hp) by (assumption || lia).
  pose proof (remaining_after_header data s1 r [] Hp Hok Hr0) as Hr'.
  rewrite app_nil_r in Hr'.
  unfold handle_box. cbn [box_type size header_size box_start].
  fold (is_jxlc r) (is_jxlp r). rewrite (jxlp_not_jxlc r Hj), Hj.
  unfold bind at 1. rewrite f_read_short by (rewrite ?Hr'; lia).
  rewrite Hr'. unfold bind at 1, unpack.
  destruct (Nat.eqb_spec (length (rb_body r)) 4); [lia|].
  reflexivity.
Qed.

Lemma X9_cut_index_sample :
  extract_codestream roomy
    (Some (sample_sig ++ boxes_bytes [jxlp_box x00 xff x0a]
           ++ box_bytes {| rb_size := [x00; x00; x00; x0e]; rb_type := jxlp;
                           rb_ext := []; rb_body := [x00; x00] |})) 2
  = Some (false, None).
Proof.
  exact (X9_cut_index_fails roomy sample_sig [jxlp_box x00 xff x0a]
           {| rb_size := [x00; x00; x00; x0e]; rb_type := jxlp;
              rb_ext := []; rb_body := [x00; x00] |} 2
           eq_refl eq_refl eq_refl eq_refl ltac:(cbn; lia)
           ltac:(repeat split; vm_compute; discriminate) ltac:(cbn; lia)).
Defined.

(** X10. A container that ends inside the 64-bit size field of a box (the
    size field is 1, the type tag is there, fewer than eight bytes follow):
    unpacking the size raises, the call gives [False] and writes nothing,
    also when earlier boxes had delivered segments. *)
Theorem X10_cut_size_field_fails
    (plat : platform) (sig : bytes) (boxes : list raw_box) (r : raw_box)
    (fuel : nat) :
  container_header sig = true ->
  forallb scannable boxes = true ->
  cut_header r = true ->
  fits plat (sig ++ boxes_bytes boxes ++ rb_size r ++ rb_type r ++ rb_ext r) ->
  (length boxes < fuel)%nat ->
  extract_codestream plat
    (Some (sig ++ boxes_bytes boxes ++ rb_size r ++ rb_type r ++ rb_ext r))
    fuel
  = Some (false, None).
Proof.
  intros Hsig Hall Hcut Hfits Hfuel.
  pose proof Hfits as (Hm & _).
  unfold cut_header in Hcut.
  rewrite !andb_true_iff, !Nat.eqb_eq, Nat.ltb_lt in Hcut.
  destruct Hcut as [[[H1 H2] Hone] H3].
  replace fuel with (length boxes + S (fuel - S (length boxes)))%nat by lia.
  destruct (scan_prefix plat sig boxes (rb_size r ++ rb_type r ++ rb_ext r)
              (S (fuel - S (length boxes))) Hsig Hall Hfits) as [Hs Hr].
  set (data := sig ++ boxes_bytes boxes ++ rb_size r ++ rb_type r ++ rb_ext r)
    in *.
  set (s1 := moved start (Z.of_nat (length (sig ++ boxes_bytes boxes)))) in *.
  assert (Hp : 0 <= f_pos s1) by (unfold s1; cbn [f_pos moved start]; lia).
  eapply scan_failure_no_output; [now apply container_header_sig|].
  fold data. rewrite Hs. cbn [collect]. unfold bind at 1.
  unfold loop_body, bind at 1. unfold read_box, bind at 1.
  rewrite (f_read_exact plat data s1 4 _ _ Hr) by (rewrite ?H1; lia).
  rewrite H1. cbn [Nat.ltb Nat.leb].
  unfold bind at 1, unpack at 1. rewrite H1. cbn [Nat.eqb ret].
  assert (Hr1 := remaining_step data s1 4 _ _ Hp Hr ltac:(rewrite H1; lia)).
  unfold bind at 1.
  rewrite (f_read_exact plat data _ 4 _ _ Hr1) by (rewrite ?H2; lia).
  assert (Hr2 := remaining_step data (moved s1 4) 4 _ (rb_ext r)
                   ltac:(cbn [f_pos moved]; lia) Hr1 ltac:(rewrite H2; lia)).
  rewrite Hone. unfold bind at 1.
  rewrite f_read_short by (rewrite ?Hr2; lia).
  rewrite Hr2. unfold bind at 1, unpack.
  destruct (Nat.eqb_spec (length (rb_ext r)) 8); [lia|].
  reflexivity.
Qed.

Lemma X10_cut_size_field_sample :
  extract_codestream roomy
    (Some (sample_sig ++ boxes_bytes [jxlp_box x00 xff x0a]
           ++ [x00; x00; x00; x01] ++ jxlc ++ [x00; x00; x00])) 2
  = Some (false, None).
Proof.
  exact (X10_cut_size_field_fails roomy sample_sig [jxlp_box x00 xff x0a]
           {| rb_size := [x00; x00; x00; x01]; rb_type := jxlc;
              rb_ext := [x00; x00; x00]; rb_body := [] |} 2
           eq_refl eq_refl eq_refl
           ltac:(repeat split; vm_compute; discriminate) ltac:(cbn; lia)).
Defined.

(** X11. A [jxlc] box whose declared size is one less than its header
    length: the read count is -1, which [f.read] takes for "to the end of
    the file".  Everything behind the header becomes the payload of the
    segment of index 0 and is written out with the segments collected
    before. *)
Theorem X11_count_minus_one_reads_the_rest
    (plat : platform) (sig : bytes) (boxes : list raw_box) (r : raw_box)
    (fuel : nat) :
  container_header sig = true ->
  forallb scannable boxes = true ->
  header_ok r = true ->
  is_jxlc r = true ->
  declared_size r = header_length r - 1 ->
  fits plat (sig ++ boxes_bytes boxes ++ box_bytes r) ->
  out_writable plat = true ->
  (length boxes < fuel)%nat ->
  let parts := segments_of boxes ++ [(0, rb_body r)] in
  extract_codestream plat (Some (sig ++ boxes_bytes boxes ++ box_bytes r)) fuel
  = Some (has_magic (merge parts), Some (merge parts)).
Proof.
  intros Hsig Hall Hok Hc Hsz Hfits Hw Hfuel parts.
  pose proof Hfits as (Hm & Hrd & _).
  replace fuel with (length boxes + S (fuel - S (length boxes)))%nat by lia.
  destruct (scan_prefix plat sig boxes (box_bytes r)
              (S (fuel - S (length boxes))) Hsig Hall Hfits) as [Hs Hr].
  set (data := sig ++ boxes_bytes boxes ++ box_bytes r) in *.
  set (s1 := moved start (Z.of_nat (length (sig ++ boxes_bytes boxes)))) in *.
  assert (Hp : 0 <= f_pos s1) by (unfold s1; cbn [f_pos moved start]; lia).
  assert (Hr0 : remaining data s1 = box_bytes r ++ [])
    by (rewrite app_nil_r; exact Hr).
  pose proof (remaining_after_header data s1 r [] Hp Hok Hr0) as Hr'.
  rewrite app_nil_r in Hr'.
  assert (Hlen : Z.of_nat (length (rb_body r)) <= max_read plat).
  { unfold data in Hrd. rewrite !length_app in Hrd.
    pose proof (length_box_bytes r Hok).
    assert (8 <= header_length r)
      by (unfold header_length; destruct (extended r); lia).
    lia. }
  rewrite extract_container;
    [| assumption | now apply container_header_sig].
  rewrite Hs. cbn [collect]. unfold bind at 1.
  rewrite (loop_body_header plat data s1 r [] _ Hp) by (assumption || lia).
  unfold handle_box. cbn [box_type size header_size box_start].
  fold (is_jxlc r). rewrite Hc, Hsz.
  replace (header_length r - 1 - header_length r) with (-1) by lia.
  unfold bind, f_read. change (-1 <? -1) with false.
  change (-1 =? -1) with true. cbv iota. rewrite Hr'.
  destruct (Z.ltb_spec (max_read plat) (Z.of_nat (length (rb_body r))));
    [lia|].
  unfold ret. fold parts. unfold parts at 1.
  destruct (segments_of boxes); cbn [app]; now rewrite Hw.
Qed.

Lemma X11_size_seven_sample :
  extract_codestream roomy
    (Some (sample_sig
           ++ box_bytes {| rb_size := [x00; x00; x00; x07]; rb_type := jxlc;
                           rb_ext := [];
                           rb_body := [xff; x0a; x01; x02; x03] |})) 1
  = Some (true, Some [xff; x0a; x01; x02; x03]).
Proof.
  exact (X11_count_minus_one_reads_the_rest roomy sample_sig []
           {| rb_size := [x00; x00; x00; x07]; rb_type := jxlc;
              rb_ext := []; rb_body := [xff; x0a; x01; x02; x03] |} 1
           eq_refl eq_refl eq_refl eq_refl eq_refl
           ltac:(repeat split; vm_compute; discriminate)
           eq_refl ltac:(cbn; lia)).
Defined.

(** ** Further properties: what [read_box] and the scan keep *)

Lemma f_read_ret (plat : platform) (data : bytes) (n : Z) (s s' : handles)
    (d : bytes) :
  f_read plat data n s = Ret d s' ->
  (n = -1 \/ (0 <= n /\ Z.of_nat (length d) <= n))
  /\ s' = moved s (Z.of_nat (length d)).
Proof.
  unfold f_read. destruct (Z.ltb_spec n (-1)); [discriminate|].
  destruct (Z.eqb_spec n (-1)) as [->|Hn].
  - destruct (_ <? _); [discriminate|]. intros [= <- <-]. auto.
  - destruct (_ <? _); [discriminate|]. intros [= <- <-].
    split; [|reflexivity]. right. split; [lia|].
    rewrite length_take by lia. lia.
Qed.

(** X12. The box that [read_box] returns: its header length is 8 or 16;
    with 8 the size is a 32-bit value other than 1, with 16 it is a 64-bit
    value; the type tag has at most four bytes; the start offset is the
    cursor less the header length, so it never lies behind the offset at
    which the header was read; and the cursor has moved on by at least the
    size field and at most the header length. *)
Theorem X12_read_box_result
    (plat : platform) (data : bytes) (s s' : handles) (b : box) :
  read_box plat data s = Ret (Some b) s' ->
  ((header_size b = 8 /\ 0 <= size b < 2 ^ 32 /\ size b <> 1)
   \/ (header_size b = 16 /\ 0 <= size b < 2 ^ 64))
  /\ (length (box_type b) <= 4)%nat
  /\ box_start b = f_pos s' - header_size b
  /\ box_start b <= f_pos s
  /\ f_pos s + 4 <= f_pos s' <= f_pos s + header_size b
  /\ written s' = written s.
Proof.
  unfold read_box, bind.
  destruct (f_read plat data 4 s) as [d1 s1| |] eqn:E1; try discriminate.
  apply f_read_ret in E1 as [[?|[_ L1]] ->]; [discriminate|].
  destruct (Nat.ltb_spec (length d1) 4) as [|G1]; [discriminate|].
  assert (H1 : length d1 = 4%nat) by lia.
  unfold unpack at 1. rewrite H1. cbn [Nat.eqb ret].
  destruct (f_read plat data 4 _) as [d2 s2| |] eqn:E2; try discriminate.
  apply f_read_ret in E2 as [[?|[_ L2]] ->]; [discriminate|].
  pose proof (be_value_bounds d1) as B1. rewrite H1 in B1.
  change (256 ^ Z.of_nat 4) with (2 ^ 32) in B1.
  destruct (Z.eqb_spec (be_value d1) 1) as [Hone|Hone].
  - destruct (f_read plat data 8 _) as [d3 s3| |] eqn:E3; try discriminate.
    apply f_read_ret in E3 as [[?|[_ L3]] ->]; [discriminate|].
    unfold unpack.
    destruct (Nat.eqb_spec (length d3) 8) as [H3|]; [|discriminate].
    unfold f_tell, ret. intros [= <- <-].
    pose proof (be_value_bounds d3) as B3. rewrite H3 in B3.
    change (256 ^ Z.of_nat 8) with (2 ^ 64) in B3.
    cbn [header_size size box_type box_start f_pos moved written].
    repeat split; auto; try lia.
  - unfold f_tell, ret. intros [= <- <-].
    cbn [header_size size box_type box_start f_pos moved written].
    repeat split; auto; try lia.
Qed.

Lemma X12_read_box_sample :
  ((8 = 8 /\ 0 <= 10 < 2 ^ 32 /\ 10 <> 1) \/ (8 = 16 /\ 0 <= 10 < 2 ^ 64))
  /\ (length free <= 4)%nat
  /\ 12 = 20 - 8
  /\ 12 <= 12
  /\ 12 + 4 <= 20 <= 12 + 8
  /\ None = @None bytes.
Proof.
  exact (X12_read_box_result roomy (sample_sig ++ box_bytes free_box)
           (moved start 12) (moved start 20)
           {| box_type := free; size := 10; header_size := 8;
              box_start := 12 |} eq_refl).
Defined.

Lemma loop_body_appends (plat : platform) (data : bytes) (s s' : handles)
    (parts : list part) (c : loop_ctl) :
  loop_body plat data parts s = Ret c s' ->
  exists added,
    c = Break (parts ++ added) \/ c = Continue (parts ++ added).
Proof.
  unfold loop_body, bind.
  destruct (read_box plat data s) as [[b|] s1| |]; try discriminate.
  - unfold handle_box.
    destruct (bytes_eqb (box_type b) jxlc).
    + unfold bind. destruct (f_read _ _ _ s1) as [d s2| |]; try discriminate.
      intros [= <- <-]. eauto.
    + destruct (bytes_eqb (box_type b) jxlp).
      * unfold bind.
        destruct (f_read _ _ 4 s1) as [d s2| |]; try discriminate.
        destruct (unpack 4 d s2) as [i s3| |]; try discriminate.
        destruct (f_read _ _ _ s3) as [d' s4| |]; try discriminate.
        intros [= <- <-]. eauto.
      * unfold bind. destruct (f_seek _ _ s1) as [u s2| |]; try discriminate.
        intros [= <- <-]. exists []. right. now rewrite app_nil_r.
  - intros [= <- <-]. exists []. left. now rewrite app_nil_r.
Qed.

(** X13. The scan only ever appends: the parts it returns begin with the
    parts it was started with, in the same order, and the output file is as
    it was. *)
Theorem X13_scan_only_appends
    (plat : platform) (data : bytes) (fuel : nat) :
  forall (parts parts' : list part) (s s' : handles),
  collect plat data fuel parts s = Ret parts' s' ->
  (exists added, parts' = parts ++ added) /\ written s' = written s.
Proof.
  intros parts parts' s s' H. split.
  - revert parts s H. induction fuel as [|fuel IH]; intros parts s H;
      [discriminate|].
    cbn [collect] in H. unfold bind in H.
    destruct (loop_body plat data parts s) as [c s1| |] eqn:E;
      try discriminate.
    apply loop_body_appends in E as [added [-> | ->]].
    + injection H as <- _. eauto.
    + apply IH in H as [more ->]. exists (added ++ more).
      now rewrite app_assoc.
  - pose proof (keeps_output_collect plat data fuel parts s) as K.
    now rewrite H in K.
Qed.

Lemma X13_scan_sample :
  (exists added, [(9, [x01]); (0, [xff; x0a])] = [(9, [x01])] ++ added)
  /\ @None bytes = None.
Proof.
  exact (X13_scan_only_appends roomy
           (sample_sig ++ box_bytes (jxlc_box xff x0a)) 1
           [(9, [x01])] [(9, [x01]); (0, [xff; x0a])]
           (moved start 12) (moved start 22) eq_refl).
Defined.

Lemma drop_past_end (n : Z) (l : bytes) :
  Z.of_nat (length l) <= n -> drop n l = [].
Proof.
  intros H. rewrite drop_skipn. apply skipn_all2. lia.
Qed.

(** X15. A box of a skipped type in which the file ends (it declares at
    least as many bytes as are left) does no harm: the seek goes past the end
    of the file, the next header read finds nothing, and the call gives what
    it gives for the file without that box. *)
Theorem X15_cut_skipped_box_ends_scan
    (plat : platform) (sig : bytes) (boxes : list raw_box) (r : raw_box)
    (fuel : nat) :
  container_header sig = true ->
  forallb scannable boxes = true ->
  header_ok r = true ->
  is_jxlc r = false ->
  is_jxlp r = false ->
  header_length r + Z.of_nat (length (rb_body r)) <= declared_size r ->
  Z.of_nat (length (sig ++ boxes_bytes boxes)) + declared_size r
  <= max_offset plat ->
  fits plat (sig ++ boxes_bytes boxes ++ box_bytes r) ->
  (S (length boxes) < fuel)%nat ->
  extract_codestream plat (Some (sig ++ boxes_bytes boxes ++ box_bytes r)) fuel
  = extract_codestream plat (Some (sig ++ boxes_bytes boxes)) fuel.
Proof.
  intros Hsig Hall Hok Hc Hj Hdecl Hseek Hfits Hfuel.
  pose proof Hfits as (Hm & _).
  assert (Hfits' : fits plat (sig ++ boxes_bytes boxes))
    by (rewrite app_assoc in Hfits; exact (fits_prefix _ _ _ Hfits)).
  rewrite !extract_container;
    try assumption; try now apply container_header_sig.
  rewrite (collect_all plat sig boxes fuel Hsig Hall Hfits')
    by lia.
  replace fuel with (length boxes + S (S (fuel - S (S (length boxes)))))%nat
    at 1 by lia.
  destruct (scan_prefix plat sig boxes (box_bytes r)
              (S (S (fuel - S (S (length boxes))))) Hsig Hall Hfits)
    as [Hs Hr].
  set (data := sig ++ boxes_bytes boxes ++ box_bytes r) in *.
  set (s1 := moved start (Z.of_nat (length (sig ++ boxes_bytes boxes)))) in *.
  assert (Hp : 0 <= f_pos s1) by (unfold s1; cbn [f_pos moved start]; lia).
  assert (Hr0 : remaining data s1 = box_bytes r ++ [])
    by (rewrite app_nil_r; exact Hr).
  pose proof (length_box_bytes r Hok) as Hlen.
  assert (Hh : 8 <= header_length r)
    by (unfold header_length; destruct (extended r); lia).
  rewrite Hs. cbn [collect]. unfold bind at 1.
  rewrite (loop_body_header plat data s1 r [] _ Hp) by (assumption || lia).
  unfold handle_box. cbn [box_type size header_size box_start].
  fold (is_jxlc r) (is_jxlp r). rewrite Hc, Hj.
  unfold bind at 1, f_seek. cbn [f_pos moved written].
  assert (Hpos : f_pos s1 = Z.of_nat (length (sig ++ boxes_bytes boxes)))
    by (unfold s1; cbn [f_pos moved start]; lia).
  destruct (Z.ltb_spec (f_pos s1 + declared_size r) 0); [lia|].
  destruct (Z.ltb_spec (max_offset plat) (f_pos s1 + declared_size r));
    [lia|].
  cbn [orb]. unfold ret at 1. unfold bind.
  rewrite loop_body_eof; [reflexivity | | lia].
  unfold remaining. cbn [f_pos]. apply drop_past_end.
  unfold data. rewrite !length_app in *. lia.
Qed.

Lemma X15_cut_free_box_sample :
  extract_codestream roomy
    (Some (sample_sig ++ boxes_bytes [jxlp_box x00 xff x0a]
           ++ box_bytes {| rb_size := [x00; x00; x01; x00]; rb_type := free;
                           rb_ext := []; rb_body := [x77] |})) 3
  = extract_codestream roomy
      (Some (sample_sig ++ boxes_bytes [jxlp_box x00 xff x0a])) 3.
Proof.
  exact (X15_cut_skipped_box_ends_scan roomy sample_sig
           [jxlp_box x00 xff x0a]
           {| rb_size := [x00; x00; x01; x00]; rb_type := free;
              rb_ext := []; rb_body := [x77] |} 3
           eq_refl eq_refl eq_refl eq_refl eq_refl
           ltac:(vm_compute; discriminate) ltac:(vm_compute; discriminate)
           ltac:(repeat split; vm_compute; discriminate) ltac:(cbn; lia)).
Defined.

(** ** The messages *)

Lemma say_quiet (verbose : bool) (plat : platform) (t : text) (s : handles) :
  quiet verbose plat -> say verbose plat t s = Ret tt s.
Proof.
  intros [-> | Hall]; [reflexivity|].
  unfold say, print_text. rewrite Hall. now destruct verbose.
Qed.


Lemma bind_say_quiet {A} (verbose : bool) (plat : platform) (t : text)
    (k : M A) (s : handles) :
  quiet verbose plat -> (say verbose plat t ;;; k) s = k s.
Proof. intros Hq. unfold bind. now rewrite say_quiet. Qed.


Lemma bind_ext {A B} (c1 c2 : M A) (k1 k2 : A -> M B) (s : handles) :
  c1 s = c2 s ->
  (forall a s1, k1 a s1 = k2 a s1) ->
  bind c1 k1 s = bind c2 k2 s.
Proof.
  intros Hc Hk. unfold bind. rewrite Hc. destruct (c2 s); auto.
Qed.


Section Messages.

Variable verbose : bool.
Variable plat : platform.
Variable data : bytes.

Lemma handle_box_v_quiet (b : box) (parts : list part) (s : handles) :
  quiet verbose plat ->
  handle_box_v verbose plat data b parts s = handle_box plat data b parts s.
Proof.
  intros Hq. unfold handle_box_v, handle_box.
  destruct (bytes_eqb (box_type b) jxlc); [now rewrite bind_say_quiet|].
  destruct (bytes_eqb (box_type b) jxlp); [now rewrite bind_say_quiet|].
  reflexivity.
Qed.

Lemma loop_body_v_quiet (parts : list part) (s : handles) :
  quiet verbose plat ->
  loop_body_v verbose plat data parts s = loop_body plat data parts s.
Proof.
  intros Hq. unfold loop_body_v, loop_body, bind.
  destruct (read_box plat data s) as [[b|] s1| |]; try reflexivity.
  now apply handle_box_v_quiet.
Qed.

Lemma collect_v_quiet (fuel : nat) :
  quiet verbose plat ->
  forall parts s,
  collect_v verbose plat data fuel parts s = collect plat data fuel parts s.
Proof.
  intros Hq. induction fuel as [|fuel IH]; intros parts s; [reflexivity|].
  cbn [collect_v collect]. unfold bind. rewrite loop_body_v_quiet by assumption.
  destruct (loop_body plat data parts s) as [[p|p] s1| |]; auto.
Qed.

Lemma extract_body_v_quiet (fuel : nat) (s : handles) :
  quiet verbose plat ->
  extract_body_v verbose plat data fuel s = extract_body plat data fuel s.
Proof.
  intros Hq. unfold extract_body_v, extract_body.
  apply bind_ext; [reflexivity|]. intros sig s1.
  destruct (negb (bytes_eqb (take 4 sig) container_sig)).
  - destruct (bytes_eqb (take 2 sig) codestream_magic);
      now rewrite bind_say_quiet.
  - rewrite bind_say_quiet by assumption.
    apply bind_ext; [now apply collect_v_quiet|]. intros [|p parts] s2.
    + now rewrite bind_say_quiet.
    + transitivity
        ((out_open plat ;;;
          out_write (merge (p :: parts)) ;;;
          say verbose plat Check ;;;
          (if negb (bytes_eqb (take 2 (merge (p :: parts))) codestream_magic)
           then say verbose plat Warning ;;; ret false
           else ret true)) s2).
      { destruct (1 <? length (p :: parts))%nat;
          [now apply bind_say_quiet | reflexivity]. }
      apply bind_ext; [reflexivity|]. intros _ s3.
      apply bind_ext; [reflexivity|]. intros _ s4.
      rewrite bind_say_quiet by assumption.
      destruct (negb _); [now rewrite bind_say_quiet | reflexivity].
Qed.





End Messages.

(** When no message is printed or every message is accepted, the function
    gives what the call with [verbose=False] gives. *)
Lemma extract_v_quiet (verbose : bool) (plat : platform)
    (input : option bytes) (fuel : nat) :
  quiet verbose plat ->
  extract_codestream_v verbose plat input fuel
  = as_call_result (extract_codestream plat input fuel).
Proof.
  intros Hq. unfold extract_codestream_v, extract_codestream.
  destruct input as [data|].
  - rewrite extract_body_v_quiet by assumption.
    destruct (extract_body plat data fuel start) as [b s|e s|];
      cbn [try_except_v try_except as_call_result]; try reflexivity.
    now rewrite say_quiet.
  - cbn [try_except_v try_except as_call_result]. now rewrite say_quiet.
Qed.


(** C9 does not hold in its first form: with [verbose=True] the handler
    itself prints, and an exception of that [print] is outside every [try].
    On a standard output that refuses the signs of the messages, a call on a
    file that is no JPEG XL file raises out of [extract_codestream]: the
    message about the invalid file raises inside the [try], and the
    handler's message raises again. *)
Lemma C9_print_in_handler_escapes :
  extract_codestream_v true ascii_stdout (Some [x89; x50; x4e; x47]) 0
  = Escaped PrintError None.
Proof. reflexivity. Qed.

(** C9, in the form that holds.  An exception leaves [extract_codestream]
    only when [verbose] is [True] and the standard output refuses the
    handler's message; on a standard output that refuses the signs of the
    messages every call with [verbose=True] ends so.  In all other cases
    (with [verbose=False], the default, in particular) whatever exception
    the body raises is turned into [False] by the handler: that holds for an
    input path that cannot be opened, for any exception of the body, for the
    [ValueError] of a read whose count was computed negative from a [jxlc]
    box with a declared size below its header length, and for an output path
    that cannot be opened. *)
Theorem C9_exceptions_reported_as_false :
  (forall verbose plat input fuel e w,
     extract_codestream_v verbose plat input fuel = Escaped e w ->
     verbose = true /\ stdout_accepts plat Cross = false)
  /\ (forall plat input fuel,
        stdout_accepts plat Check = false ->
        stdout_accepts plat Cross = false ->
        stdout_accepts plat Slashed = false ->
        extract_codestream_v true plat input fuel = Escaped PrintError None)
  /\ (forall verbose plat fuel,
        verbose = false \/ stdout_accepts plat Cross = true ->
        extract_codestream_v verbose plat None fuel = Returned false None)
  /\ (forall verbose plat data fuel e s,
        verbose = false \/ stdout_accepts plat Cross = true ->
        extract_body_v verbose plat data fuel start = Raise e s ->
        extract_codestream_v verbose plat (Some data) fuel
        = Returned false (written s))
  /\ (forall verbose plat sig boxes jx rest fuel,
        quiet verbose plat ->
        container_header sig = true ->
        forallb scannable boxes = true ->
        header_ok jx = true ->
        is_jxlc jx = true ->
        declared_size jx - header_length jx < -1 ->
        fits plat (sig ++ boxes_bytes boxes ++ box_bytes jx ++ rest) ->
        (length boxes < fuel)%nat ->
        let data := sig ++ boxes_bytes boxes ++ box_bytes jx ++ rest in
        (exists s, extract_body_v verbose plat data fuel start
                   = Raise ValueError s)
        /\ extract_codestream_v verbose plat (Some data) fuel
           = Returned false None)
  /\ (forall verbose plat data fuel parts s,
        quiet verbose plat ->
        12 <= max_read plat ->
        take 4 data = container_sig ->
        collect plat data fuel [] (after_signature data) = Ret parts s ->
        out_writable plat = false ->
        extract_codestream_v verbose plat (Some data) fuel
        = Returned false None).
Proof.
  assert (Hhandler : forall verbose plat s,
            verbose = false \/ stdout_accepts plat Cross = true ->
            say verbose plat Cross s = Ret tt s).
  { intros verbose plat s [-> | Hg]; [reflexivity|].
    unfold say, print_text. rewrite Hg. now destruct verbose. }
  split; [|split; [|split; [|split; [|split]]]].
  - intros verbose plat input fuel e w. unfold extract_codestream_v.
    assert (G : forall r, try_except_v verbose plat r = Escaped e w ->
                          verbose = true /\ stdout_accepts plat Cross = false).
    { intros [b s|e' s|]; unfold try_except_v, say, print_text;
        try discriminate.
      destruct verbose; [|discriminate].
      destruct (stdout_accepts plat Cross); [discriminate | auto]. }
    destruct input; apply G.
  - intros plat input fuel Hk Hg Hs.
    assert (Hsay : forall t s,
              t = Check \/ t = Cross \/ t = Slashed ->
              say true plat t s = Raise PrintError s).
    { intros t s [-> | [-> | ->]]; unfold say, print_text;
        now rewrite ?Hk, ?Hg, ?Hs. }
    unfold extract_codestream_v. destruct input as [data|];
      [|cbn [try_except_v]; now rewrite Hsay by auto].
    assert (Hbody : exists e s,
              extract_body_v true plat data fuel start = Raise e s
              /\ written s = None).
    { unfold extract_body_v, bind at 1. unfold f_read at 1.
      change (12 <? -1) with false. change (12 =? -1) with false. cbv iota.
      destruct (max_read plat <? 12); [eauto|].
      destruct (negb _);
        [destruct (bytes_eqb _ codestream_magic)|];
        unfold bind at 1; rewrite Hsay by auto; eauto. }
    destruct Hbody as (e & s & -> & Hw). cbn [try_except_v].
    now rewrite Hsay, Hw by auto.
  - intros verbose plat fuel Hq. unfold extract_codestream_v.
    cbn [try_except_v]. now rewrite Hhandler.
  - intros verbose plat data fuel e s Hq H. unfold extract_codestream_v.
    rewrite H. cbn [try_except_v]. now rewrite Hhandler.
  - intros verbose plat sig boxes jx rest fuel Hq Hsig Hall Hok Hc Hneg Hfits
           Hfuel data.
    destruct (proj1 (proj2 (proj2 default_call_exceptions))
                plat sig boxes jx rest fuel Hsig Hall Hok Hc Hneg Hfits Hfuel)
      as [[s Hs] Hres].
    split.
    + exists s. now rewrite extract_body_v_quiet.
    + rewrite extract_v_quiet by assumption. unfold data. now rewrite Hres.
  - intros verbose plat data fuel parts s Hq Hm Hsig Hcol Hw.
    rewrite extract_v_quiet by assumption.
    now rewrite (proj2 (proj2 (proj2 default_call_exceptions))
                   plat data fuel parts s Hm Hsig Hcol Hw).
Qed.

Lemma C9_negative_count_sample :
  extract_codestream_v false roomy (Some (sample_sig ++ box_bytes zero_jxlc)) 1
  = Returned false None
  /\ extract_codestream_v true roomy
       (Some (sample_sig ++ [x00; x00; x00; x01])) 1
     = Returned false None
  /\ extract_codestream_v false read_only
       (Some (sample_sig ++ box_bytes (jxlc_box xff x0a))) 1
     = Returned false None
  /\ extract_codestream_v true ascii_stdout None 0 = Escaped PrintError None.
Proof.
  split; [|split; [|split]].
  - exact (proj2 (proj1 (proj2 (proj2 (proj2 (proj2
             C9_exceptions_reported_as_false))))
             false roomy sample_sig [] zero_jxlc [] 1%nat
             (or_introl eq_refl)
             eq_refl eq_refl eq_refl eq_refl
             ltac:(vm_compute; reflexivity)
             ltac:(repeat split; vm_compute; discriminate)
             ltac:(cbn; lia))).
  - exact (proj1 (proj2 (proj2 (proj2 C9_exceptions_reported_as_false)))
             true roomy (sample_sig ++ [x00; x00; x00; x01]) 1%nat
             StructError (moved start 16) (or_intror eq_refl) eq_refl).
  - exact (proj2 (proj2 (proj2 (proj2 (proj2
             C9_exceptions_reported_as_false))))
             false read_only (sample_sig ++ box_bytes (jxlc_box xff x0a))
             1%nat [(0, [xff; x0a])] (moved start 22)
             (or_introl eq_refl)
             ltac:(vm_compute; discriminate) eq_refl eq_refl eq_refl).
  - exact (proj1 (proj2 C9_exceptions_reported_as_false)
             ascii_stdout None 0%nat eq_refl eq_refl eq_refl).
Defined.

(** ** Further properties: the command line *)




(** X16. The [verbose] flag changes nothing but the messages: when every
    message can be printed, the call with [verbose=True] returns and writes
    what the call with [verbose=False] does. *)
Theorem X16_messages_do_not_change_the_result
    (plat : platform) (input : option bytes) (fuel : nat) :
  (forall t, stdout_accepts plat t = true) ->
  extract_codestream_v true plat input fuel
  = extract_codestream_v false plat input fuel.
Proof.
  intros Hall.
  rewrite !extract_v_quiet; [reflexivity | now left | now right].
Qed.

Lemma X16_verbose_sample :
  extract_codestream_v true roomy
    (Some (sample_sig ++ boxes_bytes scrambled)) 5
  = extract_codestream_v false roomy
      (Some (sample_sig ++ boxes_bytes scrambled)) 5.
Proof.
  exact (X16_messages_do_not_change_the_result roomy
           (Some (sample_sig ++ boxes_bytes scrambled)) 5
           (fun _ => eq_refl)).
Defined.
